(** * NADAC price-change report: a shallow embedding of [main.py]

    The program reads the rows of the NADAC comparison CSV, keeps for each
    drug description the per-unit price change of the last row seen, and
    prints the ten largest and the ten smallest changes.

    Layout of this file:
    - [Py]: exceptions, results of fallible code, and standard output;
    - [decimal]: Python's [decimal.Decimal] under the default context
      (precision 28, ROUND_HALF_EVEN, Emin = -999999, Emax = 999999, traps on
      InvalidOperation and Overflow), with the constructor's limits of a
      64-bit CPython;
    - the three functions of [main.py] and its [__main__] block;
    - the vocabulary of the properties, and the example rows of the header
      comment of [main.py];
    - facts about the decimal module, the index, the loader and the report;
    - the properties of the program.

    Text is modelled by [string]; a character stands for the code point of
    the same number, 0 to 255, and text with other code points is outside
    the model.  The response body is modelled by the rows that [csv.reader]
    yields from it, one [list string] per row; the transport and the CSV
    dialect are not modelled. *)

From Stdlib Require Import ZArith NArith List String Ascii Bool Lia.
From Stdlib Require Import Permutation Sorted.
Import ListNotations.

(* ===================================================================== *)
(** * Exceptions, results and output *)
(* ===================================================================== *)

Module Py.

(** The exceptions the program can raise on a given sequence of rows:
    [IndexError] from [row[i]], [decimal.InvalidOperation] from the
    [Decimal] constructor, from arithmetic and from ordering comparisons,
    [decimal.Overflow] from arithmetic. *)
Inductive exn : Type :=
| IndexError
| InvalidOperation
| Overflow.

(** The outcome of an expression: a value, or an exception that unwinds. *)
Inductive result (A : Type) : Type :=
| Ok (a : A)
| Raise (e : exn).

Arguments Ok {A} a.
Arguments Raise {A} e.

Definition bind {A B : Type} (m : result A) (k : A -> result B) : result B :=
  match m with
  | Ok a => k a
  | Raise e => Raise e
  end.

(** A statement that prints: the lines written to standard output so far
    (one per call of [print]) and the outcome.  Lines printed before an
    exception stay printed. *)
Definition io (A : Type) : Type := (list string * result A)%type.

Definition io_ret {A : Type} (a : A) : io A := ([], Ok a).

Definition io_bind {A B : Type} (m : io A) (k : A -> io B) : io B :=
  match m with
  | (out, Ok a) => let (out', r) := k a in (out ++ out', r)
  | (out, Raise e) => (out, Raise e)
  end.

Definition lift {A : Type} (r : result A) : io A := ([], r).

Definition print (line : string) : io unit := ([line], Ok tt).

(** [for x in xs: body x] *)
Fixpoint for_each {A : Type} (xs : list A) (body : A -> io unit) : io unit :=
  match xs with
  | [] => io_ret tt
  | x :: rest => io_bind (body x) (fun _ => for_each rest body)
  end.

(** [row[i]] on a list. *)
Definition getitem {A : Type} (l : list A) (i : nat) : result A :=
  match nth_error l i with
  | Some x => Ok x
  | None => Raise IndexError
  end.

End Py.

Import Py.

Declare Scope py_scope.
Delimit Scope py_scope with py.
Notation "x <- m ;; k" := (bind m (fun x => k))
  (at level 61, m at next level, right associativity) : py_scope.
Notation "x <~ m ;; k" := (io_bind m (fun x => k))
  (at level 61, m at next level, right associativity) : py_scope.
Notation "m ;;; k" := (io_bind m (fun _ => k))
  (at level 61, right associativity) : py_scope.

(* ===================================================================== *)
(** * The decimal module *)
(* ===================================================================== *)

Module decimal.

Local Open Scope Z_scope.
Local Open Scope py_scope.

(** A [Decimal] is a finite number [(-1)^sign * coeff * 10^exp], an
    infinity, or a NaN (quiet or signaling) with a diagnostic payload. *)
Inductive Decimal : Type :=
| Finite (sign : bool) (coeff : N) (exp : Z)
| Infinity (sign : bool)
| NaN (sign : bool) (signaling : bool) (payload : N).

(** The default context. *)
Definition prec : Z := 28.
Definition Emax : Z := 999999.
Definition Emin : Z := -999999.
Definition Etiny : Z := Emin - prec + 1.
Definition Etop : Z := Emax - prec + 1.

(** The limits of the constructor, which converts exactly. *)
Definition MAX_EMAX : Z := 999999999999999999.
Definition MIN_ETINY : Z := -1999999999999999997.

(** ** Digits *)

Definition digit_char (d : N) : ascii := ascii_of_N (48 + d).

Fixpoint digits_from (fuel : nat) (n : N) (acc : string) : string :=
  match fuel with
  | O => acc
  | S fuel' =>
      let acc' := String (digit_char (n mod 10)) acc in
      if (n / 10 =? 0)%N then acc' else digits_from fuel' (n / 10) acc'
  end.

(** [str(n)] for a natural number: its decimal digits, ["0"] for zero. *)
Definition str_N (n : N) : string :=
  digits_from (S (N.to_nat (N.log2 n))) n "".

(** [len(self._int)]: the number of digits of a coefficient. *)
Definition ndigits (c : N) : Z := Z.of_nat (String.length (str_N c)).

Definition pow10 (k : Z) : N := (10 ^ Z.to_N k)%N.

(** ** Rounding to the context: [Decimal._fix] *)

(** [c / 10^k] rounded half-even, for [k > 0] dropped digits. *)
Definition round_half_even (c : N) (k : Z) : N :=
  let p := pow10 k in
  let q := (c / p)%N in
  let r := (c mod p)%N in
  if ((p <? 2 * r) || ((p =? 2 * r) && N.odd q))%N then (q + 1)%N else q.

Definition fix_nan (d : Decimal) : Decimal :=
  match d with
  | NaN s sg p => NaN s sg (p mod pow10 prec)
  | _ => d
  end.

Definition Decimal_fix (d : Decimal) : result Decimal :=
  match d with
  | Finite s c e =>
      if (c =? 0)%N then Ok (Finite s 0 (Z.min (Z.max e Etiny) Emax))
      else
        let exp_min := ndigits c + e - prec in
        if Etop <? exp_min then Raise Overflow
        else
          let exp_min := Z.max exp_min Etiny in
          if e <? exp_min then
            let coeff := round_half_even c (exp_min - e) in
            let '(coeff, exp_min) :=
              if prec <? ndigits coeff then ((coeff / 10)%N, exp_min + 1)
              else (coeff, exp_min) in
            if Etop <? exp_min then Raise Overflow
            else Ok (Finite s coeff exp_min)
          else Ok d
  | Infinity _ => Ok d
  | NaN _ _ _ => Ok (fix_nan d)
  end.

(** ** Arithmetic and comparison *)

Definition signed (s : bool) (c : N) : Z :=
  if s then - Z.of_N c else Z.of_N c.

(** The signed coefficient of [(-1)^s * c * 10^e] at the exponent
    [e0 <= e]. *)
Definition scaled (s : bool) (c : N) (e e0 : Z) : Z :=
  signed s c * 10 ^ (e - e0).

Definition copy_negate (d : Decimal) : Decimal :=
  match d with
  | Finite s c e => Finite (negb s) c e
  | Infinity s => Infinity (negb s)
  | NaN s sg p => NaN (negb s) sg p
  end.

Definition copy_abs (d : Decimal) : Decimal :=
  match d with
  | Finite _ c e => Finite false c e
  | Infinity _ => Infinity false
  | NaN _ sg p => NaN false sg p
  end.

Definition is_nan (d : Decimal) : bool :=
  match d with
  | NaN _ _ _ => true
  | _ => false
  end.

(** [Decimal._check_nans]: a signaling NaN operand raises, a quiet one is
    the answer (the left operand first). *)
Definition check_nans (a b : Decimal) : option (result Decimal) :=
  match a, b with
  | NaN _ true _, _ => Some (Raise InvalidOperation)
  | _, NaN _ true _ => Some (Raise InvalidOperation)
  | NaN _ false _, _ => Some (Ok (fix_nan a))
  | _, NaN _ false _ => Some (Ok (fix_nan b))
  | _, _ => None
  end.

(** [a + b]: the exact sum at the smaller exponent, then [_fix]. *)
Definition Decimal_add (a b : Decimal) : result Decimal :=
  match check_nans a b with
  | Some r => r
  | None =>
      match a, b with
      | Infinity sa, Infinity sb =>
          if Bool.eqb sa sb then Ok a else Raise InvalidOperation
      | Infinity _, _ => Ok a
      | _, Infinity _ => Ok b
      | Finite sa ca ea, Finite sb cb eb =>
          let e := Z.min ea eb in
          let z := scaled sa ca ea e + scaled sb cb eb e in
          if z =? 0 then Decimal_fix (Finite (sa && sb) 0 e)
          else Decimal_fix (Finite (z <? 0) (Z.abs_N z) e)
      | NaN _ _ _, _ | _, NaN _ _ _ =>
          (* not reached: [check_nans] answers when an operand is a NaN *)
          Raise InvalidOperation
      end
  end.

(** [a - b], computed as [a + b.copy_negate()] once NaNs are dealt with. *)
Definition Decimal_sub (a b : Decimal) : result Decimal :=
  match check_nans a b with
  | Some r => r
  | None => Decimal_add a (copy_negate b)
  end.

(** [abs(a)] *)
Definition Decimal_abs (a : Decimal) : result Decimal :=
  match a with
  | NaN _ true _ => Raise InvalidOperation
  | NaN _ false _ => Ok (fix_nan a)
  | _ => Decimal_fix (copy_abs a)
  end.

(** [Decimal._cmp] on two numbers: the order of their values, with
    [-Infinity] below and [Infinity] above every finite number, and
    [-0 = 0]. *)
Definition Decimal_cmp (a b : Decimal) : comparison :=
  let inf (d : Decimal) : Z :=
    match d with
    | Infinity true => -1
    | Infinity false => 1
    | _ => 0
    end in
  match a, b with
  | Finite sa ca ea, Finite sb cb eb =>
      let e := Z.min ea eb in
      scaled sa ca ea e ?= scaled sb cb eb e
  | _, _ => inf a ?= inf b
  end.

(** [a < b]: an ordering comparison with a NaN raises. *)
Definition Decimal_lt (a b : Decimal) : result bool :=
  if is_nan a || is_nan b then Raise InvalidOperation
  else Ok (match Decimal_cmp a b with Lt => true | _ => false end).

Definition zero : Decimal := Finite false 0 0.

(** ** [str(d)]: the scientific string of a value *)

Definition zeros (n : Z) : string :=
  string_of_list_ascii (repeat "0"%char (Z.to_nat n)).

(** ["%+d" % n] *)
Definition str_signed (n : Z) : string :=
  ((if (n <? 0)%Z then "-" else "+") ++ str_N (Z.abs_N n))%string.

Definition Decimal_str (d : Decimal) : string :=
  let sign (s : bool) : string := if s then "-"%string else ""%string in
  match d with
  | Infinity s => (sign s ++ "Infinity")%string
  | NaN s sg p =>
      (sign s ++ (if sg then "sNaN" else "NaN")
              ++ (if (p =? 0)%N then "" else str_N p))%string
  | Finite s c e =>
      let int := str_N c in
      let len := ndigits c in
      let leftdigits := e + len in
      let dotplace :=
        if (e <=? 0) && (-6 <? leftdigits) then leftdigits else 1 in
      let '(intpart, fracpart) :=
        if dotplace <=? 0 then
          ("0", "." ++ zeros (- dotplace) ++ int)%string
        else if len <=? dotplace then
          (int ++ zeros (dotplace - len), "")%string
        else
          (substring 0 (Z.to_nat dotplace) int,
           "." ++ substring (Z.to_nat dotplace) (Z.to_nat (len - dotplace)) int)%string in
      let exp :=
        if leftdigits =? dotplace then ""%string
        else ("E" ++ str_signed (leftdigits - dotplace))%string in
      (sign s ++ intpart ++ fracpart ++ exp)%string
  end.

(** ** [Decimal(value)]: the constructor from a string

    The string is stripped of surrounding whitespace and of every
    underscore, and then has to match

      [sign] (digits [. [digits]] | . digits) [(e|E) [sign] digits]
      | [sign] Inf[inity] | [sign] [s]NaN [digits]

    with the letters in either case. *)

Definition is_space (c : ascii) : bool :=
  let n := N_of_ascii c in
  ((9 <=? n) && (n <=? 13) || (28 <=? n) && (n <=? 32)
   || (n =? 133) || (n =? 160))%N.

Definition is_digit (c : ascii) : bool :=
  let n := N_of_ascii c in ((48 <=? n) && (n <=? 57))%N.

Definition lower (c : ascii) : ascii :=
  let n := N_of_ascii c in
  if ((65 <=? n) && (n <=? 90))%N then ascii_of_N (n + 32) else c.

Fixpoint lstrip (s : list ascii) : list ascii :=
  match s with
  | c :: s' => if is_space c then lstrip s' else s
  | [] => []
  end.

Definition strip (s : list ascii) : list ascii :=
  rev (lstrip (rev (lstrip s))).

Definition remove_underscores (s : list ascii) : list ascii :=
  filter (fun c => negb (Ascii.eqb c "_")) s.

(** The longest prefix of digits, and the rest. *)
Fixpoint span_digits (s : list ascii) : list ascii * list ascii :=
  match s with
  | c :: s' =>
      if is_digit c then let (ds, rest) := span_digits s' in (c :: ds, rest)
      else ([], s)
  | [] => ([], [])
  end.

(** [int(digits)], 0 for no digits. *)
Definition int_of_digits (ds : list ascii) : N :=
  fold_left (fun acc c => (10 * acc + (N_of_ascii c - 48))%N) ds 0%N.

Definition split_sign (s : list ascii) : bool * list ascii :=
  match s with
  | "-"%char :: rest => (true, rest)
  | "+"%char :: rest => (false, rest)
  | _ => (false, s)
  end.

(** The exponent part: nothing, or [e], an optional sign and digits up to
    the end of the string. *)
Definition parse_exponent (s : list ascii) : option Z :=
  match s with
  | [] => Some 0
  | c :: rest =>
      if Ascii.eqb (lower c) "e" then
        let (neg, rest) := split_sign rest in
        match span_digits rest with
        | ((_ :: _) as ds, []) =>
            let n := Z.of_N (int_of_digits ds) in
            Some (if neg then - n else n)
        | _ => None
        end
      else None
  end.

(** A number: coefficient and exponent. *)
Definition parse_number (s : list ascii) : option (N * Z) :=
  let (intpart, rest) := span_digits s in
  let '(fracpart, rest) :=
    match rest with
    | "."%char :: rest' => span_digits rest'
    | _ => ([], rest)
    end in
  match intpart ++ fracpart with
  | [] => None
  | ds =>
      match parse_exponent rest with
      | Some e => Some (int_of_digits ds, e - Z.of_nat (List.length fracpart))
      | None => None
      end
  end.

Definition parse_special (sign : bool) (s : list ascii) : option Decimal :=
  let s := map lower s in
  let nan (signaling : bool) (diag : list ascii) : option Decimal :=
    match span_digits diag with
    | (ds, []) => Some (NaN sign signaling (int_of_digits ds))
    | _ => None
    end in
  match s with
  | ["i"; "n"; "f"]%char => Some (Infinity sign)
  | ["i"; "n"; "f"; "i"; "n"; "i"; "t"; "y"]%char => Some (Infinity sign)
  | "n"%char :: "a"%char :: "n"%char :: diag => nan false diag
  | "s"%char :: "n"%char :: "a"%char :: "n"%char :: diag => nan true diag
  | _ => None
  end.

(** The constructor converts exactly, so a number outside the limits of
    the representation is refused. *)
Definition in_limits (c : N) (e : Z) : bool :=
  if (c =? 0)%N then (MIN_ETINY <=? e) && (e <=? MAX_EMAX)
  else (MIN_ETINY <=? e) && (e + ndigits c - 1 <=? MAX_EMAX).

Definition Decimal_of_string (value : string) : result Decimal :=
  let s := remove_underscores (strip (list_ascii_of_string value)) in
  let (sign, body) := split_sign s in
  match parse_number body with
  | Some (c, e) =>
      if in_limits c e then Ok (Finite sign c e) else Raise InvalidOperation
  | None =>
      match parse_special sign body with
      | Some d => Ok d
      | None => Raise InvalidOperation
      end
  end.

End decimal.

Import decimal.

(* ===================================================================== *)
(** * The program *)
(* ===================================================================== *)

Local Open Scope string_scope.
Local Open Scope py_scope.

(** The line feed of ["\n"]. *)
Definition LF : string := String (ascii_of_nat 10) "".

(** ** [dict]

    A [dict] keeps its items in insertion order; storing under a key that
    is present replaces the value and leaves the item where it is. *)

Definition dict : Type := list (string * Decimal).

Fixpoint dict_update (data : dict) (key : string) (value : Decimal) : dict :=
  match data with
  | [] => [(key, value)]
  | (k, v) :: rest =>
      if String.eqb k key then (k, value) :: rest
      else (k, v) :: dict_update rest key value
  end.

(** [data.get(key)] *)
Fixpoint dict_get (data : dict) (key : string) : option Decimal :=
  match data with
  | [] => None
  | (k, v) :: rest => if String.eqb k key then Some v else dict_get rest key
  end.

Definition keys (data : dict) : list string := map fst data.

(** ** [format_dollar_amount] *)

Definition format_dollar_amount (amount : Decimal) : result string :=
  negative <- Decimal_lt amount zero ;;
  if negative : bool then
    a <- Decimal_abs amount ;;
    Ok ("-$" ++ Decimal_str a)
  else
    Ok ("$" ++ Decimal_str amount).

(** ** [parse_nadac_data] *)

(** A row as [csv.reader] yields it: the list of its fields. *)
Definition row : Type := list string.

(** The body of the loop over the rows, on the index built so far. *)
Definition process_row (data : dict) (r : row) : result dict :=
  first <- getitem r 0 ;;
  if String.eqb first "NDC Description" then
    Ok data
  else
    description <- getitem r 0 ;;
    old_field <- getitem r 2 ;;
    old_nadac <- Decimal_of_string old_field ;;
    new_field <- getitem r 3 ;;
    new_nadac <- Decimal_of_string new_field ;;
    unit_price_change <- Decimal_sub new_nadac old_nadac ;;
    Ok (dict_update data description unit_price_change).

(** The loop [for row in reader], from the index [data]. *)
Fixpoint parse_rows (data : dict) (reader : list row) : result dict :=
  match reader with
  | [] => Ok data
  | r :: rest =>
      data' <- process_row data r ;;
      parse_rows data' rest
  end.

(** [parse_nadac_data]: the index of the rows that [reader] yields from the
    response.  The response is what the URL serves; [chunk_size] sets the
    size of the blocks it is read in, not the rows it holds. *)
Definition parse_nadac_data (chunk_size : Z) (reader : list row)
  : result dict :=
  parse_rows [] reader.

(** ** [print_top_10s] *)

(** [sorted(items, key=lambda x: x[1], reverse=True)]: a stable sort into
    descending order of the keys, by [<] alone.  An item goes in front of
    the first item of the sorted rest whose key is not greater. *)
Fixpoint insert_desc (x : string * Decimal) (l : list (string * Decimal))
  : result (list (string * Decimal)) :=
  match l with
  | [] => Ok [x]
  | y :: l' =>
      less <- Decimal_lt (snd x) (snd y) ;;
      if less : bool then
        rest <- insert_desc x l' ;;
        Ok (y :: rest)
      else Ok (x :: l)
  end.

Fixpoint sorted_desc (items : list (string * Decimal))
  : result (list (string * Decimal)) :=
  match items with
  | [] => Ok []
  | x :: rest =>
      rest' <- sorted_desc rest ;;
      insert_desc x rest'
  end.

(** [l[-n:]] *)
Definition lastn {A : Type} (n : nat) (l : list A) : list A :=
  skipn (List.length l - n) l.

Definition print_entry (entry : string * Decimal) : io unit :=
  let '(description, price_change) := entry in
  amount <~ lift (format_dollar_amount price_change) ;;
  print (amount ++ ": " ++ description).

Definition increases_title : string :=
  "Top 10 NADAC per unit price increases of 2023:".

Definition decreases_title : string :=
  LF ++ "Top 10 NADAC per unit price decreases of 2023:".

Definition print_top_10s (data : dict) : io unit :=
  data_by_price_change <~ lift (sorted_desc data) ;;
  let top_10_increases := firstn 10 data_by_price_change in
  let top_10_decreases := lastn 10 data_by_price_change in
  print increases_title ;;;
  for_each top_10_increases print_entry ;;;
  print decreases_title ;;;
  for_each top_10_decreases print_entry.

(** ** The [__main__] block *)

Definition main_chunk_size : Z := 1024 * 1024 * 10.

Definition main (reader : list row) : io unit :=
  let chunk_size := main_chunk_size in
  data <~ lift (parse_nadac_data chunk_size reader) ;;
  print_top_10s data.

(* ===================================================================== *)
(** * The vocabulary of the properties *)
(* ===================================================================== *)

Section Numbers.

Local Open Scope Z_scope.

(** A value the context represents: rounding leaves it as it is.  Every
    result of an arithmetic operation is such a value. *)
Definition representable (d : Decimal) : Prop := Decimal_fix d = Ok d.

(** A number: not a NaN.  The ordering comparisons are defined on
    numbers. *)
Definition number (d : Decimal) : Prop := is_nan d = false.

(** [a >= b] on numbers. *)
Definition Decimal_ge (a b : Decimal) : Prop := Decimal_cmp a b <> Lt.

(** [delta] is the exact difference [new - old]: the three are finite
    numbers and, written at their smallest exponent, the signed coefficients
    subtract without remainder. *)
Definition exact_difference (new old delta : Decimal) : Prop :=
  match new, old, delta with
  | Finite sn cn en, Finite so co eo, Finite sd cd ed =>
      let e := Z.min (Z.min en eo) ed in
      scaled sd cd ed e = scaled sn cn en e - scaled so co eo e
  | _, _, _ => False
  end.

(** The exponent a value is stored with. *)
Definition exponent (d : Decimal) : Z :=
  match d with
  | Finite _ _ e => e
  | _ => 0
  end.

(** A zero with its sign set, as [Decimal('-0.00')]. *)
Definition negative_zero (d : Decimal) : bool :=
  match d with
  | Finite true 0%N _ => true
  | _ => false
  end.

End Numbers.

Section Digits.

Local Open Scope N_scope.

(** [n] has [k + 1] digits in base ten. *)
Definition has_digits (n : N) (k : nat) : Prop :=
  n < 10 ^ N.of_nat (S k) /\ (n = 0 /\ k = 0%nat \/ 10 ^ N.of_nat k <= n).

End Digits.

Section Rows.

(** The first field of the header row. *)
Definition HEADER : string := "NDC Description".

(** The price change a data row carries: [Decimal(row[3]) - Decimal(row[2])],
    evaluated in the order of the loop body. *)
Definition row_delta (r : row) : result Decimal :=
  old_field <- getitem r 2 ;;
  old_nadac <- Decimal_of_string old_field ;;
  new_field <- getitem r 3 ;;
  new_nadac <- Decimal_of_string new_field ;;
  Decimal_sub new_nadac old_nadac.

(** An outcome that is an exception. *)
Definition raises {A : Type} (r : result A) : bool :=
  match r with
  | Raise _ => true
  | Ok _ => false
  end.

(** A row the loop body gets through without an exception: a header row,
    or a row whose price change can be computed.  Whether it does, does not
    depend on the index. *)
Definition row_loads (r : row) : bool := negb (raises (process_row [] r)).

(** A row the loop body cannot get its prices from: no field at all, or a
    data row with fewer than four fields or with an old or new price that
    [Decimal] refuses. *)
Definition malformed_row (r : row) : bool :=
  match r with
  | [] => true
  | first :: _ =>
      negb (String.eqb first HEADER)
      && match nth_error r 2, nth_error r 3 with
         | Some old_field, Some new_field =>
             raises (Decimal_of_string old_field)
             || raises (Decimal_of_string new_field)
         | _, _ => true
         end
  end.

End Rows.

Section Entries.

(** Entries whose price changes are numbers. *)
Definition numbers (l : list (string * Decimal)) : Prop :=
  Forall (fun kv => number (snd kv)) l.

(** Descending order of the price changes. *)
Definition descending (l : list (string * Decimal)) : Prop :=
  StronglySorted (fun x y => Decimal_ge (snd x) (snd y)) l.

(** A price change that prints: a number that the context represents, as
    every number the loader stores is. *)
Definition printable (d : Decimal) : Prop := number d /\ representable d.

(** Entries whose price changes print. *)
Definition printables (l : list (string * Decimal)) : Prop :=
  Forall (fun kv => printable (snd kv)) l.

(** The text of a printable amount. *)
Definition amount_text (d : Decimal) : string :=
  match Decimal_cmp d zero with
  | Lt => "-$" ++ Decimal_str (copy_abs d)
  | _ => "$" ++ Decimal_str d
  end.

(** The line of an entry. *)
Definition line (entry : string * Decimal) : string :=
  amount_text (snd entry) ++ ": " ++ fst entry.

End Entries.

Section Streams.

(** The descriptions of the data rows of a stream, in the order of the
    rows: the first field of every row that has one and is no header
    row. *)
Fixpoint descriptions (reader : list row) : list string :=
  match reader with
  | [] => []
  | [] :: rest => descriptions rest
  | (first :: _) :: rest =>
      if String.eqb first HEADER then descriptions rest
      else first :: descriptions rest
  end.

(** What storing under a key does to the keys of a [dict]. *)
Definition add_key (acc : list string) (key : string) : list string :=
  if in_dec string_dec key acc then acc else (acc ++ [key])%list.

(** A list without its repetitions, each element where it stands first. *)
Definition first_occurrences (l : list string) : list string :=
  rev (nodup string_dec (rev l)).

(** The fields of a row that the loop body reads: [row[0]], [row[2]] and
    [row[3]]. *)
Definition used_fields (r : row)
  : option string * option string * option string :=
  (nth_error r 0, nth_error r 2, nth_error r 3).

(** A field that [Decimal] reads as a NaN. *)
Definition spells_nan (field : string) : bool :=
  match Decimal_of_string field with
  | Ok d => is_nan d
  | Raise _ => false
  end.

(** A data row with a NaN for its old or its new price. *)
Definition nan_price (r : row) : bool :=
  match r with
  | [] => false
  | first :: _ =>
      negb (String.eqb first HEADER)
      && ((match nth_error r 2 with
           | Some field => spells_nan field
           | None => false
           end)
          || (match nth_error r 3 with
              | Some field => spells_nan field
              | None => false
              end))
  end.

(** An entry whose price change equals [d] in value. *)
Definition same_delta (d : Decimal) (entry : string * Decimal) : bool :=
  match Decimal_cmp (snd entry) d with
  | Eq => true
  | _ => false
  end.

(** The report of a ranking: the titles over the lines of its first ten
    and of its last ten entries. *)
Definition report (ranked : list (string * Decimal)) : list string :=
  ((increases_title :: map line (firstn 10 ranked))
     ++ decreases_title :: map line (lastn 10 ranked))%list.

End Streams.

(* ===================================================================== *)
(** * The rows of the header comment of [main.py] *)
(* ===================================================================== *)

Module Examples.

Definition header : row :=
  ["NDC Description"; "NDC"; "Old NADAC Per Unit"; "New NADAC Per Unit";
   "Classification for Rate Setting"; "Percent Change"; "Primary Reason";
   "Start Date"; "End Date"; "Effective Date"].

Definition amoxicillin : row :=
  ["AMOXICILLIN 200 MG/5 ML SUSP"; "00093416073"; "0.03051"; "0.02509"; "G";
   "-17.76"; "Survey Rate"; "12/14/2022"; "12/21/2022"; "12/21/2022"].

Definition ibuprofen : row :=
  ["IBUPROFEN 200 MG SOFTGEL"; "00536114730"; "0.07853"; "0.08730"; "G";
   "11.17"; "Survey Rate"; "12/14/2022"; "12/21/2022"; "12/21/2022"].

Definition acetaminophen : row :=
  ["ACETAMINOPHEN 325 MG TABLET"; "00904671960"; "0.02468"; "0.02209"; "G";
   "-10.49"; "Survey Rate"; "12/14/2022"; "12/21/2022"; "12/21/2022"].

(** A row in the format of the file, effective in 2021. *)
Definition effective_2021 : row :=
  ["LISINOPRIL 10 MG TABLET"; "00591040501"; "0.01500"; "0.02750"; "G";
   "83.33"; "Survey Rate"; "12/30/2020"; "01/05/2021"; "01/05/2021"].

(** A later row for a description seen before. *)
Definition amoxicillin_later : row :=
  ["AMOXICILLIN 200 MG/5 ML SUSP"; "00093416073"; "0.02509"; "0.02600"; "G";
   "3.63"; "Survey Rate"; "12/21/2022"; "12/28/2022"; "12/28/2022"].

(** The price changes 5, -3, 10, -8 and 0. *)
Definition five_deltas : dict :=
  [("A", Finite false 5 0); ("B", Finite true 3 0); ("C", Finite false 10 0);
   ("D", Finite true 8 0); ("E", Finite false 0 0)].

(** Twelve entries, with the price changes 1 to 12. *)
Definition twelve_deltas : dict :=
  [("D01", Finite false 1 0); ("D02", Finite false 2 0);
   ("D03", Finite false 3 0); ("D04", Finite false 4 0);
   ("D05", Finite false 5 0); ("D06", Finite false 6 0);
   ("D07", Finite false 7 0); ("D08", Finite false 8 0);
   ("D09", Finite false 9 0); ("D10", Finite false 10 0);
   ("D11", Finite false 11 0); ("D12", Finite false 12 0)].

End Examples.

Import Examples.

(* ===================================================================== *)
(** * Facts about the decimal module *)
(* ===================================================================== *)

Section DigitFacts.

Local Open Scope N_scope.

Lemma pow10_S (k : nat) : 10 ^ N.of_nat (S k) = 10 * 10 ^ N.of_nat k.
Proof. rewrite Nnat.Nat2N.inj_succ. apply N.pow_succ_r'. Qed.

Lemma digits_from_S (fuel : nat) (n : N) (acc : string) :
  digits_from (S fuel) n acc =
  if n / 10 =? 0 then String (digit_char (n mod 10)) acc
  else digits_from fuel (n / 10) (String (digit_char (n mod 10)) acc).
Proof. reflexivity. Qed.

(** The digits written for [n] are as many as its size in base ten. *)
Lemma digits_from_length (fuel : nat) :
  forall (n : N) (acc : string),
    n < 2 ^ N.of_nat (S fuel) ->
    exists k : nat,
      String.length (digits_from (S fuel) n acc) = (S k + String.length acc)%nat
      /\ has_digits n k.
Proof.
  induction fuel as [|fuel IH]; intros n acc Hn.
  - exists 0%nat. rewrite digits_from_S.
    assert (Hlt : n < 2) by exact Hn.
    assert (Hq : n / 10 = 0) by (apply N.div_small; lia).
    rewrite Hq. cbn [N.eqb String.length]. split; [reflexivity|].
    unfold has_digits. cbn. lia.
  - rewrite digits_from_S. destruct (N.eqb_spec (n / 10) 0) as [Hq|Hq].
    + exists 0%nat. cbn [String.length]. split; [reflexivity|].
      apply N.div_small_iff in Hq; [|lia].
      unfold has_digits. cbn. lia.
    + set (acc' := String (digit_char (n mod 10)) acc).
      assert (Hn' : n / 10 < 2 ^ N.of_nat (S fuel)).
      { apply N.Div0.div_lt_upper_bound.
        rewrite (Nnat.Nat2N.inj_succ (S fuel)), N.pow_succ_r' in Hn. lia. }
      destruct (IH (n / 10) acc' Hn') as (k & Hlen & Hup & Hlow).
      exists (S k). rewrite Hlen. subst acc'. cbn [String.length].
      split; [lia|].
      pose proof (N.Div0.div_mod n 10) as Hdm.
      pose proof (N.mod_lt n 10 ltac:(lia)) as Hmod.
      unfold has_digits. rewrite (pow10_S (S k)), (pow10_S k).
      rewrite (pow10_S k) in Hup.
      destruct Hlow as [[H0 _]|Hlow]; [contradiction|].
      clear Hn Hn' Hlen IH Hq.
      remember (n / 10) as q. remember (n mod 10) as r.
      remember (10 ^ N.of_nat k) as p.
      split; [lia|right; lia].
Qed.

Lemma ndigits_spec (n : N) :
  exists k : nat, ndigits n = Z.of_nat (S k) /\ has_digits n k.
Proof.
  unfold ndigits, str_N.
  destruct (digits_from_length (N.to_nat (N.log2 n)) n "") as (k & Hlen & H).
  - rewrite Nnat.Nat2N.inj_succ, Nnat.N2Nat.id.
    destruct (N.eq_dec n 0) as [->|Hn]; [reflexivity|].
    apply N.log2_spec. lia.
  - exists k. rewrite Hlen. cbn [String.length]. split; [f_equal; lia|exact H].
Qed.

Lemma ndigits_pos (n : N) : (1 <= ndigits n)%Z.
Proof. destruct (ndigits_spec n) as (k & -> & _). lia. Qed.

(** A coefficient below [10^m] has at most [m] digits. *)
Lemma ndigits_le (n : N) (m : nat) :
  (0 < m)%nat -> n < 10 ^ N.of_nat m -> (ndigits n <= Z.of_nat m)%Z.
Proof.
  intros Hm Hn. destruct (ndigits_spec n) as (k & -> & _ & Hlow).
  destruct Hlow as [[_ ->]|Hlow]; [lia|].
  destruct (Nat.le_gt_cases (S k) m) as [|Hgt]; [lia|].
  exfalso.
  assert (10 ^ N.of_nat m <= 10 ^ N.of_nat k) by (apply N.pow_le_mono_r; lia).
  lia.
Qed.

(** A coefficient is below ten to the number of its digits. *)
Lemma ndigits_lt (n : N) : n < 10 ^ Z.to_N (ndigits n).
Proof.
  destruct (ndigits_spec n) as (k & -> & Hup & _).
  replace (Z.to_N (Z.of_nat (S k))) with (N.of_nat (S k)) by lia. exact Hup.
Qed.

End DigitFacts.

Section Fix.

Local Open Scope Z_scope.

Lemma round_half_even_le (c : N) (k : Z) :
  (round_half_even c k <= c / pow10 k + 1)%N.
Proof.
  unfold round_half_even.
  destruct ((pow10 k <? 2 * (c mod pow10 k)) || _)%N; lia.
Qed.

(** Dropping [k] digits of a coefficient of [nd <= 28 + k] digits leaves
    less than [10^28]. *)
Lemma div_pow10_lt (c : N) (k : Z) :
  0 <= k -> ndigits c <= prec + k -> (c / pow10 k < 10 ^ 28)%N.
Proof.
  intros Hk Hnd. apply N.Div0.div_lt_upper_bound.
  pose proof (ndigits_lt c) as Hc. pose proof (ndigits_pos c) as Hpos.
  unfold pow10. rewrite <- N.pow_add_r.
  eapply N.lt_le_trans; [exact Hc|].
  apply N.pow_le_mono_r; [lia|]. unfold prec in Hnd. lia.
Qed.

(** A finite number with a coefficient of at most 28 digits and an
    exponent between Etiny and Etop is representable. *)
Lemma fix_in_range (s : bool) (c : N) (e : Z) :
  ndigits c <= prec -> Etiny <= e <= Etop ->
  Decimal_fix (Finite s c e) = Ok (Finite s c e).
Proof.
  intros Hnd [Hlo Hhi]. unfold Decimal_fix.
  destruct (N.eqb_spec c 0) as [->|Hc].
  - f_equal. f_equal. unfold Etop, Emax, prec in *. lia.
  - destruct (Z.ltb_spec Etop (ndigits c + e - prec)); [lia|].
    destruct (Z.ltb_spec e (Z.max (ndigits c + e - prec) Etiny)); [lia|].
    reflexivity.
Qed.

Lemma Decimal_fix_idem (d d' : Decimal) :
  Decimal_fix d = Ok d' -> representable d'.
Proof.
  unfold representable. destruct d as [s c e|s|s sg p]; cbn [Decimal_fix].
  - destruct (N.eqb_spec c 0) as [->|Hc].
    + intros [= <-]. cbn [Decimal_fix N.eqb]. f_equal. f_equal.
      unfold Etiny, Emin, Emax, prec. lia.
    + destruct (Z.ltb_spec Etop (ndigits c + e - prec)) as [|Htop]; [discriminate|].
      cbv zeta.
      set (exp_min := Z.max (ndigits c + e - prec) Etiny).
      destruct (Z.ltb_spec e exp_min) as [Hlt|Hge].
      * set (q := round_half_even c (exp_min - e)).
        assert (Hq : (q <= 10 ^ 28)%N).
        { pose proof (round_half_even_le c (exp_min - e)) as Hle.
          pose proof (div_pow10_lt c (exp_min - e) ltac:(lia) ltac:(lia)).
          subst q. lia. }
        assert (Hmin : Etiny <= exp_min) by (subst exp_min; lia).
        destruct (Z.ltb_spec prec (ndigits q)) as [Hcarry|Hfit].
        -- destruct (Z.ltb_spec Etop (exp_min + 1)); [discriminate|].
           intros [= <-]. apply fix_in_range; [|lia].
           clearbody q. apply (ndigits_le (q / 10) 28); [lia|].
           apply N.Div0.div_lt_upper_bound.
           replace (N.of_nat 28) with 28%N by reflexivity. lia.
        -- destruct (Z.ltb_spec Etop exp_min); [discriminate|].
           intros [= <-]. apply fix_in_range; lia.
      * intros [= <-]. cbn [Decimal_fix].
        destruct (N.eqb_spec c 0) as [|_]; [contradiction|].
        destruct (Z.ltb_spec Etop (ndigits c + e - prec)); [lia|].
        cbv zeta. fold exp_min.
        destruct (Z.ltb_spec e exp_min); [lia|]. reflexivity.
  - intros [= <-]. reflexivity.
  - intros [= <-]. cbn [Decimal_fix fix_nan]. f_equal. f_equal.
    apply N.Div0.mod_mod.
Qed.

(** Rounding does not look at the sign. *)
Lemma Decimal_fix_sign (s s' : bool) (c : N) (e : Z) :
  representable (Finite s c e) -> representable (Finite s' c e).
Proof.
  unfold representable, Decimal_fix.
  destruct (N.eqb_spec c 0) as [->|Hc].
  - intros [= H]. rewrite H. reflexivity.
  - destruct (Etop <? ndigits c + e - prec); [discriminate|].
    cbv zeta. destruct (e <? Z.max (ndigits c + e - prec) Etiny).
    + destruct (prec <? ndigits _).
      * destruct (Etop <? _); [discriminate|]. intros [= H1 H2].
        rewrite H1, H2. reflexivity.
      * destruct (Etop <? _); [discriminate|]. intros [= H1 H2].
        rewrite H1, H2. reflexivity.
    + reflexivity.
Qed.

End Fix.

Section Arithmetic.

Local Open Scope Z_scope.

Lemma scaled_negb (s : bool) (c : N) (e e0 : Z) :
  scaled (negb s) c e e0 = - scaled s c e e0.
Proof. unfold scaled, signed. destruct s; cbn [negb]; lia. Qed.

Lemma scaled_same (s : bool) (c : N) (e : Z) : scaled s c e e = signed s c.
Proof. unfold scaled. rewrite Z.sub_diag. cbn. lia. Qed.

Lemma signed_abs (z : Z) : signed (z <? 0) (Z.abs_N z) = z.
Proof. unfold signed. destruct (Z.ltb_spec z 0); lia. Qed.

(** A subtraction whose exact result has at most 28 digits, at an exponent
    the context allows, returns that result, digit for digit. *)
Lemma Decimal_sub_exact (sn so : bool) (cn co : N) (en eo : Z) :
  let e := Z.min en eo in
  let z := scaled sn cn en e - scaled so co eo e in
  Z.abs z < 10 ^ 28 -> Etiny <= e <= Etop ->
  exists (sd : bool) (cd : N),
    Decimal_sub (Finite sn cn en) (Finite so co eo) = Ok (Finite sd cd e)
    /\ signed sd cd = z.
Proof.
  intros e z Hz He.
  unfold Decimal_sub, Decimal_add. cbn [check_nans copy_negate].
  fold e. rewrite scaled_negb. rewrite Z.add_opp_r. fold z.
  destruct (Z.eqb_spec z 0) as [H0|Hnz].
  - exists (sn && negb so)%bool, 0%N. split.
    + apply fix_in_range; [now vm_compute|exact He].
    + rewrite H0. unfold signed. destruct (sn && negb so)%bool; reflexivity.
  - exists (z <? 0), (Z.abs_N z). split.
    + apply fix_in_range; [|exact He].
      apply (ndigits_le (Z.abs_N z) 28); [lia|].
      replace (N.of_nat 28) with 28%N by reflexivity.
      clearbody z. lia.
    + apply signed_abs.
Qed.

(** The value written at a smaller exponent is a multiple of the value
    written at a larger one. *)
Lemma scaled_split (s : bool) (c : N) (e e1 e0 : Z) :
  e0 <= e1 <= e -> scaled s c e e0 = scaled s c e e1 * 10 ^ (e1 - e0).
Proof.
  intros H. unfold scaled. rewrite <- Z.mul_assoc, <- Z.pow_add_r by lia.
  do 2 f_equal. lia.
Qed.

Lemma scaled_nonneg (c : N) (e e0 : Z) : 0 <= scaled false c e e0.
Proof.
  unfold scaled, signed. apply Z.mul_nonneg_nonneg; [lia|].
  apply Z.pow_nonneg. lia.
Qed.

(** [a < 0] for a finite number: a set sign on a coefficient that is not
    zero. *)
Lemma Decimal_lt_zero (s : bool) (c : N) (e : Z) :
  Decimal_lt (Finite s c e) zero = Ok (s && negb (c =? 0)%N)%bool.
Proof.
  unfold Decimal_lt, zero, Decimal_cmp. cbn [is_nan orb]. f_equal.
  set (e0 := Z.min e 0).
  assert (Hp : 0 < 10 ^ (e - e0)) by (apply Z.pow_pos_nonneg; lia).
  replace (scaled false 0 0 e0) with 0 by (unfold scaled; reflexivity).
  unfold scaled, signed.
  destruct s, (N.eqb_spec c 0) as [->|Hc]; cbn [andb negb].
  - reflexivity.
  - destruct (Z.compare_spec (- Z.of_N c * 10 ^ (e - e0)) 0); try reflexivity; nia.
  - reflexivity.
  - destruct (Z.compare_spec (Z.of_N c * 10 ^ (e - e0)) 0); try reflexivity; nia.
Qed.

End Arithmetic.

Section Results.

(** Results of arithmetic are representable. *)
Lemma check_nans_representable (a b : Decimal) (d : Decimal) :
  check_nans a b = Some (Ok d) -> representable d.
Proof.
  destruct a as [sa ca ea|sa|sa [|] pa], b as [sb cb eb|sb|sb [|] pb];
    cbn [check_nans]; intros [= <-];
    unfold representable; cbn [Decimal_fix fix_nan];
    now rewrite N.Div0.mod_mod.
Qed.

Lemma Decimal_add_representable (a b d : Decimal) :
  Decimal_add a b = Ok d -> representable d.
Proof.
  unfold Decimal_add. destruct (check_nans a b) as [r|] eqn:Hn.
  - intros ->. exact (check_nans_representable a b d Hn).
  - destruct a as [sa ca ea|sa|sa [|] pa], b as [sb cb eb|sb|sb [|] pb];
      try discriminate Hn.
    + destruct (_ =? 0)%Z; apply Decimal_fix_idem.
    + intros [= <-]. reflexivity.
    + intros [= <-]. reflexivity.
    + destruct (Bool.eqb sa sb); [|discriminate]. intros [= <-]. reflexivity.
Qed.

Lemma Decimal_sub_representable (a b d : Decimal) :
  Decimal_sub a b = Ok d -> representable d.
Proof.
  unfold Decimal_sub. destruct (check_nans a b) as [r|] eqn:Hn.
  - intros ->. exact (check_nans_representable a b d Hn).
  - apply Decimal_add_representable.
Qed.

Lemma Decimal_abs_representable (a : Decimal) :
  is_nan a = false -> representable a -> Decimal_abs a = Ok (copy_abs a).
Proof.
  destruct a as [s c e|s|s sg p]; try discriminate; intros _ H.
  - exact (Decimal_fix_sign s false c e H).
  - reflexivity.
Qed.

End Results.

(* ===================================================================== *)
(** * Facts about the index *)
(* ===================================================================== *)

Section Index.

Lemma keys_update (data : dict) (key : string) (value : Decimal) :
  keys (dict_update data key value) =
  if in_dec string_dec key (keys data) then keys data
  else (keys data ++ [key])%list.
Proof.
  induction data as [|[k v] rest IH]; cbn [dict_update keys map fst].
  - destruct (in_dec string_dec key []) as [[]|_]. reflexivity.
  - destruct (String.eqb_spec k key) as [->|Hne].
    + destruct (in_dec string_dec key (key :: map fst rest)) as [_|Hn];
        [reflexivity|]. exfalso. apply Hn. now left.
    + cbn [map fst]. fold (keys (dict_update rest key value)). rewrite IH.
      fold (keys rest).
      destruct (in_dec string_dec key (keys rest)) as [Hin|Hnin];
        destruct (in_dec string_dec key (k :: keys rest)) as [Hin'|Hnin'];
        try reflexivity.
      * exfalso. apply Hnin'. now right.
      * exfalso. destruct Hin' as [Heq|Hin']; contradiction.
Qed.

(** Storing keeps the keys distinct. *)
Lemma NoDup_keys_update (data : dict) (key : string) (value : Decimal) :
  NoDup (keys data) -> NoDup (keys (dict_update data key value)).
Proof.
  intros Hnd. rewrite keys_update.
  destruct (in_dec string_dec key (keys data)) as [|Hnin]; [exact Hnd|].
  apply NoDup_app; [exact Hnd|repeat constructor; intros []|].
  intros k Hk [<-|[]]. contradiction.
Qed.

Lemma dict_get_update_eq (data : dict) (key : string) (value : Decimal) :
  dict_get (dict_update data key value) key = Some value.
Proof.
  induction data as [|[k v] rest IH]; cbn [dict_update dict_get].
  - now rewrite String.eqb_refl.
  - destruct (String.eqb_spec k key) as [->|Hne]; cbn [dict_get].
    + now rewrite String.eqb_refl.
    + destruct (String.eqb_spec k key); [contradiction|exact IH].
Qed.

Lemma dict_get_update_ne (data : dict) (key key' : string) (value : Decimal) :
  key <> key' ->
  dict_get (dict_update data key value) key' = dict_get data key'.
Proof.
  intros Hne. induction data as [|[k v] rest IH]; cbn [dict_update dict_get].
  - destruct (String.eqb_spec key key'); [contradiction|reflexivity].
  - destruct (String.eqb_spec k key) as [->|Hk]; cbn [dict_get].
    + destruct (String.eqb_spec key key'); [contradiction|reflexivity].
    + now rewrite IH.
Qed.

Lemma dict_get_In (data : dict) (key : string) :
  dict_get data key <> None <-> In key (keys data).
Proof.
  induction data as [|[k v] rest IH]; cbn [dict_get keys map fst].
  - split; [congruence|intros []].
  - destruct (String.eqb_spec k key) as [->|Hne].
    + split; [now left|congruence].
    + rewrite IH. unfold keys. split; [now right|].
      intros [Heq|Hin]; [contradiction|exact Hin].
Qed.

Lemma Forall_update (P : Decimal -> Prop) (data : dict) (key : string)
      (value : Decimal) :
  Forall (fun kv => P (snd kv)) data -> P value ->
  Forall (fun kv => P (snd kv)) (dict_update data key value).
Proof.
  intros Hall Hv. induction Hall as [|[k v] rest Hkv Hrest IH];
    cbn [dict_update].
  - repeat constructor. exact Hv.
  - destruct (String.eqb k key); constructor; assumption.
Qed.

End Index.

(* ===================================================================== *)
(** * Facts about the loader *)
(* ===================================================================== *)

Section Loader.

Lemma process_row_header (data : dict) (fields : list string) :
  process_row data (HEADER :: fields) = Ok data.
Proof. reflexivity. Qed.

Lemma process_row_data (data : dict) (description : string)
      (fields : list string) :
  description <> HEADER ->
  process_row data (description :: fields) =
  (delta <- row_delta (description :: fields) ;;
   Ok (dict_update data description delta)).
Proof.
  intros Hne. unfold process_row, row_delta. cbn [getitem nth_error bind].
  destruct (String.eqb_spec description "NDC Description") as [Heq|_];
    [contradiction|].
  destruct (getitem (description :: fields) 2) as [old_field|e]; [|reflexivity].
  cbn [bind]. destruct (Decimal_of_string old_field) as [old|e]; [|reflexivity].
  cbn [bind].
  destruct (getitem (description :: fields) 3) as [new_field|e]; [|reflexivity].
  cbn [bind]. destruct (Decimal_of_string new_field) as [new|e]; [|reflexivity].
  cbn [bind]. destruct (Decimal_sub new old); reflexivity.
Qed.

(** The three ways through the loop body. *)
Lemma process_row_cases (data : dict) (r : row) :
  (r = [] /\ process_row data r = Raise IndexError)
  \/ (exists fields, r = HEADER :: fields /\ process_row data r = Ok data)
  \/ (exists description fields,
        r = description :: fields /\ description <> HEADER
        /\ process_row data r =
           (delta <- row_delta r ;; Ok (dict_update data description delta))).
Proof.
  destruct r as [|first fields]; [now left|right].
  destruct (string_dec first HEADER) as [->|Hne].
  - left. now exists fields.
  - right. exists first, fields. repeat split; [exact Hne|].
    now apply process_row_data.
Qed.

(** Whether a row raises, and what, does not depend on the index. *)
Lemma process_row_raise (data data' : dict) (r : row) (e : exn) :
  process_row data r = Raise e -> process_row data' r = Raise e.
Proof.
  destruct (process_row_cases data r) as [[-> _]|[(fields & -> & _)|
    (description & fields & -> & Hne & _)]].
  - trivial.
  - discriminate.
  - rewrite !process_row_data by exact Hne.
    destruct (row_delta (description :: fields)); [discriminate|trivial].
Qed.

Lemma parse_rows_app (data : dict) (pre post : list row) :
  parse_rows data (pre ++ post)%list =
  (data' <- parse_rows data pre ;; parse_rows data' post).
Proof.
  revert data. induction pre as [|r pre IH]; intros data; cbn [app parse_rows].
  - reflexivity.
  - destruct (process_row data r) as [data'|e]; cbn [bind]; [apply IH|reflexivity].
Qed.

(** What a pass through the loop body that does not raise has done. *)
Lemma process_row_ok (data data' : dict) (r : row) :
  process_row data r = Ok data' ->
  (exists fields, r = HEADER :: fields /\ data' = data)
  \/ (exists description fields delta,
        r = description :: fields /\ description <> HEADER
        /\ row_delta r = Ok delta
        /\ data' = dict_update data description delta).
Proof.
  intros Hrow.
  destruct (process_row_cases data r) as [[_ H]|[(fields & Hr & H)|
    (description & fields & Hr & Hne & H)]]; rewrite H in Hrow.
  - discriminate.
  - left. exists fields. now injection Hrow as <-.
  - right. destruct (row_delta r) as [delta|e]; [|discriminate].
    exists description, fields, delta. now injection Hrow as <-.
Qed.

(** The price change of a row is a result of [Decimal_sub]. *)
Lemma row_delta_sub (r : row) (delta : Decimal) :
  row_delta r = Ok delta ->
  exists new old, Decimal_sub new old = Ok delta.
Proof.
  unfold row_delta.
  destruct (getitem r 2) as [old_field|]; [|discriminate]. cbn [bind].
  destruct (Decimal_of_string old_field) as [old|]; [|discriminate].
  cbn [bind].
  destruct (getitem r 3) as [new_field|]; [|discriminate]. cbn [bind].
  destruct (Decimal_of_string new_field) as [new|]; [|discriminate].
  cbn [bind]. intros H. now exists new, old.
Qed.

(** A property of the index that every pass through the loop body keeps,
    holds of the index the loader returns when it holds at the start. *)
Section LoopInvariant.

Variable P : dict -> Prop.

Hypothesis P_row :
  forall (data data' : dict) (r : row),
    process_row data r = Ok data' -> P data -> P data'.

Lemma parse_rows_preserves (reader : list row) :
  forall data data' : dict,
    parse_rows data reader = Ok data' -> P data -> P data'.
Proof.
  induction reader as [|r rest IH]; intros data data' Hparse HP;
    cbn [parse_rows] in Hparse.
  - now injection Hparse as <-.
  - destruct (process_row data r) as [data1|e] eqn:Hrow; [|discriminate].
    cbn [bind] in Hparse.
    exact (IH data1 data' Hparse (P_row data data1 r Hrow HP)).
Qed.

End LoopInvariant.

(** Each pass through the loop body keeps the descriptions distinct, and
    never stores the header. *)
Lemma process_row_invariant (data data' : dict) (r : row) :
  process_row data r = Ok data' ->
  NoDup (keys data) /\ ~ In HEADER (keys data) ->
  NoDup (keys data') /\ ~ In HEADER (keys data').
Proof.
  intros Hrow [Hnd Hhd].
  destruct (process_row_ok data data' r Hrow) as [(fields & _ & ->)|
    (description & fields & delta & _ & Hne & _ & ->)].
  - now split.
  - split.
    + now apply NoDup_keys_update.
    + rewrite keys_update.
      destruct (in_dec string_dec description (keys data)); [exact Hhd|].
      rewrite in_app_iff. intros [Hin|[Heq|[]]]; contradiction.
Qed.

Lemma parse_rows_invariant (reader : list row) (data data' : dict) :
  parse_rows data reader = Ok data' ->
  NoDup (keys data) /\ ~ In HEADER (keys data) ->
  NoDup (keys data') /\ ~ In HEADER (keys data').
Proof.
  apply (parse_rows_preserves
           (fun d => NoDup (keys d) /\ ~ In HEADER (keys d))).
  exact process_row_invariant.
Qed.

(** Every price change the loader stores is representable. *)
Lemma parse_rows_representable (reader : list row) (data data' : dict) :
  parse_rows data reader = Ok data' ->
  Forall (fun kv => representable (snd kv)) data ->
  Forall (fun kv => representable (snd kv)) data'.
Proof.
  apply (parse_rows_preserves
           (fun d => Forall (fun kv => representable (snd kv)) d)).
  clear. intros data data' r Hrow Hall.
  destruct (process_row_ok data data' r Hrow) as [(fields & _ & ->)|
    (description & fields & delta & _ & _ & Hdelta & ->)].
  - exact Hall.
  - apply Forall_update; [exact Hall|].
    destruct (row_delta_sub r delta Hdelta) as (new & old & Hsub).
    exact (Decimal_sub_representable new old delta Hsub).
Qed.

(** Rows with other descriptions leave an entry as it is. *)
Lemma parse_rows_other (description : string) (reader : list row) :
  forall data data' : dict,
    parse_rows data reader = Ok data' ->
    (forall r, In r reader -> nth_error r 0 <> Some description) ->
    dict_get data' description = dict_get data description.
Proof.
  induction reader as [|r rest IH]; intros data data' Hparse Hother;
    cbn [parse_rows] in Hparse.
  - now injection Hparse as <-.
  - destruct (process_row data r) as [data1|e] eqn:Hrow; [|discriminate].
    cbn [bind] in Hparse.
    rewrite (IH data1 data' Hparse) by (intros r' Hr'; apply Hother; now right).
    destruct (process_row_ok data data1 r Hrow) as [(fields & _ & ->)|
      (d & fields & delta & -> & _ & _ & ->)].
    + reflexivity.
    + apply dict_get_update_ne.
      intros ->. apply (Hother (description :: fields)); [now left|reflexivity].
Qed.

(** A stream of rows that load each, loads. *)
Lemma parse_rows_loads (reader : list row) :
  Forall (fun r => row_loads r = true) reader ->
  forall data, exists data', parse_rows data reader = Ok data'.
Proof.
  intros Hall. induction Hall as [|r rest Hr Hrest IH]; intros data;
    cbn [parse_rows].
  - now exists data.
  - destruct (process_row data r) as [data1|e] eqn:Hrow; cbn [bind].
    + apply IH.
    + unfold row_loads in Hr.
      rewrite (process_row_raise data [] r e Hrow) in Hr. discriminate.
Qed.

End Loader.

(* ===================================================================== *)
(** * Facts about the report *)
(* ===================================================================== *)

Section Order.

Local Open Scope Z_scope.

Lemma Decimal_lt_number (a b : Decimal) :
  number a -> number b ->
  Decimal_lt a b = Ok (match Decimal_cmp a b with Lt => true | _ => false end).
Proof. unfold number, Decimal_lt. now intros -> ->. Qed.

Lemma compare_mul_pos (x y p : Z) : 0 < p -> (x * p ?= y * p) = (x ?= y).
Proof.
  intros Hp. destruct (Z.compare_spec x y) as [->|Hlt|Hgt].
  - apply Z.compare_refl.
  - apply Z.compare_lt_iff. nia.
  - apply Z.compare_gt_iff. nia.
Qed.

(** Two finite numbers compare the same at every exponent below theirs. *)
Lemma compare_scaled (sa sb : bool) (ca cb : N) (ea eb e0 : Z) :
  e0 <= Z.min ea eb ->
  (scaled sa ca ea (Z.min ea eb) ?= scaled sb cb eb (Z.min ea eb)) =
  (scaled sa ca ea e0 ?= scaled sb cb eb e0).
Proof.
  intros He. set (e := Z.min ea eb).
  rewrite (scaled_split sa ca ea e e0), (scaled_split sb cb eb e e0)
    by (subst e; lia).
  assert (Hp : 0 < 10 ^ (e - e0)) by (apply Z.pow_pos_nonneg; lia).
  symmetry. apply compare_mul_pos. exact Hp.
Qed.

Lemma Decimal_ge_trans (a b c : Decimal) :
  number a -> number b -> number c ->
  Decimal_ge a b -> Decimal_ge b c -> Decimal_ge a c.
Proof.
  unfold number, Decimal_ge.
  destruct a as [sa ca ea|[|]|], b as [sb cb eb|[|]|], c as [sc cc ec|[|]|];
    cbn [is_nan Decimal_cmp]; intros Ha Hb Hc; try discriminate;
    try (cbn; congruence).
  set (e0 := Z.min (Z.min ea eb) ec).
  rewrite (compare_scaled sa sb ca cb ea eb e0),
          (compare_scaled sb sc cb cc eb ec e0),
          (compare_scaled sa sc ca cc ea ec e0) by (subst e0; lia).
  rewrite !Z.compare_lt_iff. lia.
Qed.

Lemma Decimal_lt_ge (a b : Decimal) :
  Decimal_cmp a b = Lt -> Decimal_ge b a.
Proof.
  unfold Decimal_ge.
  destruct a as [sa ca ea|[|]|], b as [sb cb eb|[|]|];
    cbn [Decimal_cmp]; try (cbn; congruence).
  rewrite (Z.min_comm eb ea), !Z.compare_lt_iff. lia.
Qed.

End Order.

Section Sorting.

(** In front of a descending list whose head it is not below, an item
    keeps the list descending. *)
Lemma descending_cons (x y : string * Decimal) (l : list (string * Decimal)) :
  number (snd x) -> numbers (y :: l) ->
  Decimal_ge (snd x) (snd y) -> descending (y :: l) ->
  descending (x :: y :: l).
Proof.
  intros Hx Hyl Hxy Hs. constructor; [exact Hs|].
  constructor; [exact Hxy|].
  inversion Hs as [|? ? _ Hall]; subst.
  inversion Hyl as [|? ? Hy Hl]; subst.
  rewrite Forall_forall in *. intros z Hz.
  apply (Decimal_ge_trans (snd x) (snd y) (snd z)); auto.
Qed.

Lemma insert_desc_spec (x : string * Decimal) (l : list (string * Decimal)) :
  number (snd x) -> numbers l ->
  exists l', insert_desc x l = Ok l' /\ Permutation (x :: l) l'
             /\ (descending l -> descending l').
Proof.
  intros Hx Hl. induction Hl as [|y l Hy Hl IH]; cbn [insert_desc].
  - exists [x]. split; [reflexivity|]. split; [reflexivity|].
    intros _. repeat constructor.
  - rewrite (Decimal_lt_number _ _ Hx Hy). cbn [bind].
    assert (Hyl : numbers (y :: l)) by now constructor.
    destruct (Decimal_cmp (snd x) (snd y)) eqn:Hcmp.
    + exists (x :: y :: l). split; [reflexivity|]. split; [reflexivity|].
      apply descending_cons; auto. unfold Decimal_ge. congruence.
    + destruct IH as (l' & Hins & Hperm & Hsorted). rewrite Hins. cbn [bind].
      exists (y :: l'). split; [reflexivity|]. split.
      * rewrite perm_swap. now constructor.
      * intros Hs. inversion Hs as [|? ? Hs' Hall]; subst.
        constructor; [now apply Hsorted|].
        apply (Permutation_Forall Hperm). constructor; [|exact Hall].
        now apply Decimal_lt_ge.
    + exists (x :: y :: l). split; [reflexivity|]. split; [reflexivity|].
      apply descending_cons; auto. unfold Decimal_ge. congruence.
Qed.

(** On numbers the sort returns: a permutation of the items, in descending
    order. *)
Lemma sorted_desc_spec (items : list (string * Decimal)) :
  numbers items ->
  exists ranked, sorted_desc items = Ok ranked /\ Permutation items ranked
                 /\ descending ranked.
Proof.
  intros Hall. induction Hall as [|x l Hx Hl IH]; cbn [sorted_desc].
  - exists []. split; [reflexivity|]. split; constructor.
  - destruct IH as (ranked & -> & Hperm & Hsorted). cbn [bind].
    destruct (insert_desc_spec x ranked Hx) as (l' & Hins & Hperm' & Hs').
    + exact (Permutation_Forall Hperm Hl).
    + exists l'. split; [exact Hins|]. split; [|now apply Hs'].
      rewrite <- Hperm'. now constructor.
Qed.

End Sorting.

Section Printing.

Lemma format_dollar_amount_printable (d : Decimal) :
  printable d -> format_dollar_amount d = Ok (amount_text d).
Proof.
  intros [Hn Hr]. unfold format_dollar_amount, amount_text.
  rewrite (Decimal_lt_number d zero Hn eq_refl). cbn [bind].
  destruct (Decimal_cmp d zero); try reflexivity.
  now rewrite (Decimal_abs_representable d Hn Hr).
Qed.

Lemma print_entry_printable (entry : string * Decimal) :
  printable (snd entry) -> print_entry entry = ([line entry], Ok tt).
Proof.
  destruct entry as [description d]. cbn [snd]. intros H.
  unfold print_entry, line. rewrite (format_dollar_amount_printable d H).
  reflexivity.
Qed.

Lemma for_each_print_entry (l : list (string * Decimal)) :
  printables l -> for_each l print_entry = (map line l, Ok tt).
Proof.
  intros H. induction H as [|entry l He Hl IH]; cbn [for_each map].
  - reflexivity.
  - rewrite (print_entry_printable entry He), IH. reflexivity.
Qed.

Lemma printables_numbers (l : list (string * Decimal)) :
  printables l -> numbers l.
Proof. apply Forall_impl. now intros kv [H _]. Qed.

Lemma printables_firstn (n : nat) (l : list (string * Decimal)) :
  printables l -> printables (firstn n l).
Proof.
  intros H. unfold printables in *.
  rewrite <- (firstn_skipn n l) in H. now apply Forall_app in H.
Qed.

Lemma printables_lastn (n : nat) (l : list (string * Decimal)) :
  printables l -> printables (lastn n l).
Proof.
  intros H. unfold printables, lastn in *.
  rewrite <- (firstn_skipn (List.length l - n) l) in H at 1.
  now apply Forall_app in H.
Qed.

(** On printable price changes the report is printed whole: the first ten
    and the last ten of the descending order, under their titles. *)
Lemma print_top_10s_printable (data : dict) :
  printables data ->
  exists ranked,
    sorted_desc data = Ok ranked /\ Permutation data ranked
    /\ descending ranked
    /\ print_top_10s data =
       ((increases_title :: map line (firstn 10 ranked))
          ++ decreases_title :: map line (lastn 10 ranked), Ok tt)%list.
Proof.
  intros H.
  destruct (sorted_desc_spec data (printables_numbers data H))
    as (ranked & Hsort & Hperm & Hdesc).
  exists ranked. repeat (split; [assumption|]).
  assert (Hr : printables ranked) by exact (Permutation_Forall Hperm H).
  unfold print_top_10s. rewrite Hsort. unfold lift, io_bind at 1.
  unfold print.
  rewrite (for_each_print_entry _ (printables_firstn 10 ranked Hr)).
  rewrite (for_each_print_entry _ (printables_lastn 10 ranked Hr)).
  cbn [io_bind app]. reflexivity.
Qed.

(** The loader stores representable price changes only. *)
Lemma parse_nadac_data_representable (chunk_size : Z) (reader : list row)
      (data : dict) :
  parse_nadac_data chunk_size reader = Ok data ->
  Forall (fun kv => representable (snd kv)) data.
Proof.
  intros H. apply (parse_rows_representable reader [] data H). constructor.
Qed.

(** The index the loader returns prints, unless a NaN is stored in it. *)
Lemma parse_nadac_data_printables (chunk_size : Z) (reader : list row)
      (data : dict) :
  parse_nadac_data chunk_size reader = Ok data ->
  numbers data -> printables data.
Proof.
  intros Hparse Hn.
  pose proof (parse_nadac_data_representable chunk_size reader data Hparse)
    as Hr.
  unfold printables, numbers, printable in *. rewrite Forall_forall in *.
  intros kv Hin. split; auto.
Qed.

End Printing.


Example amoxicillin_delta :
  parse_nadac_data main_chunk_size [header; amoxicillin] =
  Ok [("AMOXICILLIN 200 MG/5 ML SUSP", Finite true 542 (-5))]
  /\ Decimal_str (Finite true 542 (-5)) = "-0.00542".
Proof. split; reflexivity. Qed.

Example format_examples :
  format_dollar_amount (Finite true 542 (-5)) = Ok "-$0.00542"
  /\ format_dollar_amount (Finite false 126136 (-2)) = Ok "$1261.36".
Proof. split; reflexivity. Qed.

(* ===================================================================== *)
(** * Properties of the program *)
(* ===================================================================== *)

Section Properties.

Local Open Scope Z_scope.

(** ** The year filter *)

(** The loop body reads the fields 0, 2 and 3 of a row and nothing else:
    the effective date has no part in what is stored. *)
Lemma process_row_first_four (data : dict) (description ndc old_field
      new_field : string) (rest rest' : list string) :
  process_row data (description :: ndc :: old_field :: new_field :: rest) =
  process_row data (description :: ndc :: old_field :: new_field :: rest').
Proof. reflexivity. Qed.

(** C1: the header comment of [main.py] asks for the price changes "with
    effective dates in 2022", yet a row effective on 01/05/2021 is not
    discarded: it is stored in the index that [parse_nadac_data] returns,
    next to a row effective on 12/21/2022. *)
Theorem C1_row_of_another_year_is_stored :
  nth_error effective_2021 9 = Some "01/05/2021"
  /\ nth_error amoxicillin 9 = Some "12/21/2022"
  /\ parse_nadac_data main_chunk_size [header; effective_2021; amoxicillin] =
     Ok [("LISINOPRIL 10 MG TABLET", Finite false 1250 (-5));
         ("AMOXICILLIN 200 MG/5 ML SUSP", Finite true 542 (-5))].
Proof. repeat split; reflexivity. Qed.

(** ** The order of the decreases *)

(** The decreases are a slice of the descending order, so they are printed
    from the largest of them down to the smallest. *)
Lemma descending_skipn (n : nat) (l : list (string * Decimal)) :
  descending l -> descending (skipn n l).
Proof.
  revert l. induction n as [|n IH]; intros l Hs; [exact Hs|].
  destruct l as [|x l]; [exact Hs|]. cbn [skipn]. apply IH.
  now inversion Hs.
Qed.

Lemma decreases_descending (data : dict) (ranked : list (string * Decimal)) :
  numbers data -> sorted_desc data = Ok ranked ->
  descending (lastn 10 ranked).
Proof.
  intros Hn Hsort.
  destruct (sorted_desc_spec data Hn) as (ranked' & Hsort' & _ & Hdesc).
  rewrite Hsort in Hsort'. injection Hsort' as <-.
  now apply descending_skipn.
Qed.

(** C2: for the price changes 5, -3, 10, -8 and 0 the decreases are printed
    as 10, 5, 0, -3, -8, and of the price changes 1 to 12 the ten smallest
    are printed as 10, 9, ..., 1: the smallest change comes last, where the
    header comment of [main.py] shows the most negative one first. *)
Theorem C2_decreases_printed_largest_first :
  print_top_10s five_deltas =
  ([ "Top 10 NADAC per unit price increases of 2023:";
     "$10: C"; "$5: A"; "$0: E"; "-$3: B"; "-$8: D";
     LF ++ "Top 10 NADAC per unit price decreases of 2023:";
     "$10: C"; "$5: A"; "$0: E"; "-$3: B"; "-$8: D" ],
   Ok tt)
  /\ print_top_10s twelve_deltas =
     ([ "Top 10 NADAC per unit price increases of 2023:";
        "$12: D12"; "$11: D11"; "$10: D10"; "$9: D09"; "$8: D08";
        "$7: D07"; "$6: D06"; "$5: D05"; "$4: D04"; "$3: D03";
        LF ++ "Top 10 NADAC per unit price decreases of 2023:";
        "$10: D10"; "$9: D09"; "$8: D08"; "$7: D07"; "$6: D06";
        "$5: D05"; "$4: D04"; "$3: D03"; "$2: D02"; "$1: D01" ],
      Ok tt).
Proof. split; reflexivity. Qed.

(** ** Deduplication *)

(** C3: when every row loads, the loader returns an index in which the
    last row of a description decides its entry: the index holds the price
    change of that row under the description, once, whatever the earlier
    rows of the description carried; and after every prefix of the rows the
    descriptions in the index are distinct. *)
Theorem C3_last_write_wins (chunk_size : Z) (reader : list row) :
  Forall (fun r => row_loads r = true) reader ->
  exists data,
    parse_nadac_data chunk_size reader = Ok data
    /\ (forall (pre post : list row) (r : row) (description : string),
          reader = (pre ++ r :: post)%list ->
          nth_error r 0 = Some description ->
          description <> HEADER ->
          (forall r', In r' post -> nth_error r' 0 <> Some description) ->
          exists delta,
            row_delta r = Ok delta
            /\ dict_get data description = Some delta
            /\ count_occ string_dec (keys data) description = 1%nat)
    /\ (forall pre post : list row,
          reader = (pre ++ post)%list ->
          exists data',
            parse_nadac_data chunk_size pre = Ok data'
            /\ NoDup (keys data')).
Proof.
  intros Hloads.
  destruct (parse_rows_loads reader Hloads []) as (data & Hparse).
  exists data. split; [exact Hparse|]. split.
  - intros pre post r description -> Hfirst Hne Hlast.
    unfold parse_nadac_data in Hparse. rewrite parse_rows_app in Hparse.
    destruct (parse_rows [] pre) as [data1|] eqn:Hpre; [|discriminate].
    cbn [bind parse_rows] in Hparse.
    destruct r as [|first fields]; [discriminate|].
    injection Hfirst as ->.
    rewrite (process_row_data data1 description fields Hne) in Hparse.
    destruct (row_delta (description :: fields)) as [delta|] eqn:Hdelta;
      [|discriminate].
    cbn [bind] in Hparse. exists delta. split; [reflexivity|].
    assert (Hget : dict_get data description = Some delta).
    { rewrite (parse_rows_other description post _ data Hparse Hlast).
      apply dict_get_update_eq. }
    split; [exact Hget|].
    assert (Hinv : NoDup (keys data) /\ ~ In HEADER (keys data)).
    { apply (parse_rows_invariant post _ data Hparse).
      apply (process_row_invariant data1 _ (description :: fields)).
      - rewrite (process_row_data data1 description fields Hne), Hdelta.
        reflexivity.
      - apply (parse_rows_invariant pre [] data1 Hpre).
        split; [constructor|intros []]. }
    apply NoDup_count_occ'; [exact (proj1 Hinv)|].
    apply dict_get_In. congruence.
  - intros pre post ->. unfold parse_nadac_data in *.
    rewrite parse_rows_app in Hparse.
    destruct (parse_rows [] pre) as [data1|] eqn:Hpre; [|discriminate].
    exists data1. split; [reflexivity|].
    apply (parse_rows_invariant pre [] data1 Hpre).
    split; [constructor|intros []].
Qed.

(** Two rows for a description, with another row between them: the index
    holds the price change of the later one, 0.02600 - 0.02509. *)
Lemma C3_last_write_wins_witness :
  exists data,
    parse_nadac_data main_chunk_size
      [header; amoxicillin; ibuprofen; amoxicillin_later] = Ok data
    /\ (forall (pre post : list row) (r : row) (description : string),
          [header; amoxicillin; ibuprofen; amoxicillin_later]
            = (pre ++ r :: post)%list ->
          nth_error r 0 = Some description ->
          description <> HEADER ->
          (forall r', In r' post -> nth_error r' 0 <> Some description) ->
          exists delta,
            row_delta r = Ok delta
            /\ dict_get data description = Some delta
            /\ count_occ string_dec (keys data) description = 1%nat)
    /\ (forall pre post : list row,
          [header; amoxicillin; ibuprofen; amoxicillin_later]
            = (pre ++ post)%list ->
          exists data',
            parse_nadac_data main_chunk_size pre = Ok data'
            /\ NoDup (keys data')).
Proof.
  apply C3_last_write_wins. repeat constructor.
Defined.

Example last_write_wins_example :
  parse_nadac_data main_chunk_size
    [header; amoxicillin; ibuprofen; amoxicillin_later] =
  Ok [("AMOXICILLIN 200 MG/5 ML SUSP", Finite false 91 (-5));
      ("IBUPROFEN 200 MG SOFTGEL", Finite false 877 (-5))].
Proof. reflexivity. Qed.

(** ** Exactness of the price change *)

(** Prices that are not negative, are below [10^23] and carry at most five
    fractional digits subtract exactly. *)
Lemma Decimal_sub_exact_prices (cn co : N) (en eo : Z) :
  -5 <= en <= 0 -> -5 <= eo <= 0 ->
  scaled false cn en (-5) < 10 ^ 28 -> scaled false co eo (-5) < 10 ^ 28 ->
  exists delta,
    Decimal_sub (Finite false cn en) (Finite false co eo) = Ok delta
    /\ exact_difference (Finite false cn en) (Finite false co eo) delta
    /\ exponent delta = Z.min en eo.
Proof.
  intros Hen Heo Hn Ho. set (e := Z.min en eo).
  assert (Hpow : 1 <= 10 ^ (e + 5)) by (apply Z.pow_le_mono_r with (b := 0); subst e; lia).
  rewrite (scaled_split false cn en e (-5)) in Hn by (subst e; lia).
  rewrite (scaled_split false co eo e (-5)) in Ho by (subst e; lia).
  replace (e - -5) with (e + 5) in Hn, Ho by lia.
  pose proof (scaled_nonneg cn en e) as Hn0.
  pose proof (scaled_nonneg co eo e) as Ho0.
  destruct (Decimal_sub_exact false false cn co en eo) as (sd & cd & Hsub & Hz).
  - fold e. nia.
  - fold e. unfold Etiny, Etop, Emin, Emax, prec. subst e. lia.
  - exists (Finite sd cd e). fold e in Hsub, Hz. split; [exact Hsub|].
    split; [|reflexivity]. cbn [exact_difference].
    replace (Z.min (Z.min en eo) e) with e by (subst e; lia).
    fold e. now rewrite scaled_same.
Qed.

(** C4 (as the code has it): a row whose price fields are finite decimals,
    and whose exact difference has at most 28 significant digits at an
    exponent the decimal context allows, stores the exact difference
    [new - old], at the smaller of the two exponents.  (Beyond 28 digits
    the context rounds the difference: the example after the next one.) *)
Theorem C4_delta_exact_within_precision
        (data : dict) (description ndc old_field new_field : string)
        (rest : list string) (sn so : bool) (cn co : N) (en eo : Z) :
  description <> HEADER ->
  Decimal_of_string old_field = Ok (Finite so co eo) ->
  Decimal_of_string new_field = Ok (Finite sn cn en) ->
  Z.abs (scaled sn cn en (Z.min en eo) - scaled so co eo (Z.min en eo))
    < 10 ^ 28 ->
  Etiny <= Z.min en eo <= Etop ->
  exists delta,
    process_row data (description :: ndc :: old_field :: new_field :: rest) =
      Ok (dict_update data description delta)
    /\ exact_difference (Finite sn cn en) (Finite so co eo) delta
    /\ exponent delta = Z.min en eo.
Proof.
  intros Hne Hold Hnew Hfit Hexp.
  destruct (Decimal_sub_exact sn so cn co en eo Hfit Hexp)
    as (sd & cd & Hsub & Hz).
  exists (Finite sd cd (Z.min en eo)).
  split; [|split; [|reflexivity]].
  - rewrite (process_row_data data description _ Hne).
    unfold row_delta. cbn [getitem nth_error bind].
    rewrite Hold. cbn [bind]. rewrite Hnew. cbn [bind]. rewrite Hsub.
    reflexivity.
  - cbn [exact_difference].
    replace (Z.min (Z.min en eo) (Z.min en eo)) with (Z.min en eo) by lia.
    now rewrite scaled_same.
Qed.

(** The first example row: old 0.03051, new 0.02509. *)
Lemma C4_delta_exact_within_precision_witness :
  exists delta,
    process_row [] amoxicillin =
      Ok (dict_update [] "AMOXICILLIN 200 MG/5 ML SUSP" delta)
    /\ exact_difference (Finite false 2509 (-5)) (Finite false 3051 (-5)) delta
    /\ exponent delta = Z.min (-5) (-5).
Proof.
  refine (C4_delta_exact_within_precision
            [] "AMOXICILLIN 200 MG/5 ML SUSP" "00093416073" "0.03051" "0.02509"
            _ false false 2509 3051 (-5) (-5) _ eq_refl eq_refl _ _).
  - discriminate.
  - reflexivity.
  - split; discriminate.
Defined.

(** C4 fails as stated: a new price of thirty digits less an old price of
    0.00001 has 35 significant digits; the price change stored is
    [1.000000000000000000000000000E+29], not the exact difference. *)
Lemma C4_difference_rounded_beyond_28_digits :
  Decimal_of_string "100000000000000000000000000000"
    = Ok (Finite false 100000000000000000000000000000 0)
  /\ Decimal_of_string "0.00001" = Ok (Finite false 1 (-5))
  /\ parse_nadac_data main_chunk_size
       [["X"; "1"; "0.00001"; "100000000000000000000000000000"]]
     = Ok [("X", Finite false 1000000000000000000000000000 2)]
  /\ ~ exact_difference
         (Finite false 100000000000000000000000000000 0)
         (Finite false 1 (-5))
         (Finite false 1000000000000000000000000000 2).
Proof.
  repeat split; try reflexivity. cbv. discriminate.
Qed.

(** ** Formatting *)

(** Every finite price change other than a negative zero is rendered with
    its sign in front of the dollar and its absolute value after it, with
    the digits it is stored with. *)
Lemma format_dollar_amount_finite (s : bool) (c : N) (e : Z) :
  representable (Finite s c e) -> negative_zero (Finite s c e) = false ->
  format_dollar_amount (Finite s c e) =
  Ok ((if s then "-$" else "$") ++ Decimal_str (Finite false c e)).
Proof.
  intros Hr Hz. unfold format_dollar_amount.
  rewrite Decimal_lt_zero. cbn [bind].
  destruct s; cbn [andb].
  - destruct (N.eqb_spec c 0) as [->|Hc]; [discriminate|]. cbn [negb].
    unfold Decimal_abs. cbn [copy_abs].
    now rewrite (Decimal_fix_sign true false c e Hr).
  - reflexivity.
Qed.

(** C5: a negative zero is not below zero, so it is rendered by the branch
    of the non-negative amounts with its sign after the dollar: ["$-0.00"],
    not ["$0.00"].  The loader stores such a price change for a new price
    of -0.00 and an old price of 0. *)
Theorem C5_negative_zero_rendered_with_sign_after_dollar :
  parse_nadac_data main_chunk_size [["X"; "1"; "0"; "-0.00"]]
    = Ok [("X", Finite true 0 (-2))]
  /\ format_dollar_amount (Finite true 0 (-2)) = Ok "$-0.00"
  /\ Decimal_str (copy_abs (Finite true 0 (-2))) = "0.00".
Proof. repeat split; reflexivity. Qed.

(** ** The header row *)

(** C6: a row whose first field is "NDC Description" is skipped wherever it
    stands and whatever else it holds: the loader gives the same outcome
    with the row as without it; and the index of rows that load has no
    entry under "NDC Description". *)
Theorem C6_header_row_skipped :
  (forall (chunk_size : Z) (pre post : list row) (fields : list string),
      parse_nadac_data chunk_size
        (pre ++ ("NDC Description" :: fields) :: post)%list =
      parse_nadac_data chunk_size (pre ++ post)%list)
  /\ (forall (chunk_size : Z) (reader : list row),
        Forall (fun r => row_loads r = true) reader ->
        exists data,
          parse_nadac_data chunk_size reader = Ok data
          /\ ~ In "NDC Description" (keys data)
          /\ dict_get data "NDC Description" = None).
Proof.
  split.
  - intros chunk_size pre post fields. unfold parse_nadac_data.
    rewrite !parse_rows_app.
    destruct (parse_rows [] pre) as [data|e]; cbn [bind parse_rows];
      [|reflexivity].
    change "NDC Description" with HEADER. rewrite process_row_header.
    reflexivity.
  - intros chunk_size reader Hloads.
    destruct (parse_rows_loads reader Hloads []) as (data & Hparse).
    exists data. split; [exact Hparse|].
    assert (Hinv : NoDup (keys data) /\ ~ In HEADER (keys data)).
    { apply (parse_rows_invariant reader [] data Hparse).
      split; [constructor|intros []]. }
    split; [exact (proj2 Hinv)|].
    destruct (dict_get data "NDC Description") as [d|] eqn:Hget;
      [|reflexivity].
    exfalso. apply (proj2 Hinv). apply dict_get_In.
    unfold HEADER. congruence.
Qed.

(** The header row before and after a data row. *)
Lemma C6_header_row_skipped_witness :
  exists data,
    parse_nadac_data main_chunk_size [header; amoxicillin; header] = Ok data
    /\ ~ In "NDC Description" (keys data)
    /\ dict_get data "NDC Description" = None.
Proof.
  apply (proj2 C6_header_row_skipped). repeat constructor.
Defined.

(** ** Empty input *)

(** C7: no rows, or the header row alone, load into the empty index
    without an exception, and the report of the empty index is the two
    titles with no line under either. *)
Theorem C7_empty_input :
  (forall chunk_size : Z, parse_nadac_data chunk_size [] = Ok [])
  /\ (forall (chunk_size : Z) (fields : list string),
        parse_nadac_data chunk_size [("NDC Description" :: fields)] = Ok [])
  /\ print_top_10s [] = ([increases_title; decreases_title], Ok tt)
  /\ main [] = ([increases_title; decreases_title], Ok tt)
  /\ (forall fields : list string,
        main [("NDC Description" :: fields)] =
        ([increases_title; decreases_title], Ok tt)).
Proof. repeat split; reflexivity. Qed.

(** ** Malformed rows *)

Lemma malformed_row_raises (data : dict) (r : row) :
  malformed_row r = true ->
  exists e, (e = IndexError \/ e = InvalidOperation)
            /\ process_row data r = Raise e.
Proof.
  destruct r as [|first fields]; [exists IndexError; auto|].
  cbn [malformed_row]. intros H. apply andb_prop in H as [Hne H].
  apply negb_true_iff in Hne. apply String.eqb_neq in Hne.
  rewrite (process_row_data data first fields Hne). unfold row_delta, getitem.
  destruct (nth_error (first :: fields) 2) as [old_field|];
    [|exists IndexError; auto].
  cbn [bind].
  assert (Hctor : forall s e, Decimal_of_string s = Raise e -> e = InvalidOperation).
  { intros s e. unfold Decimal_of_string.
    destruct (split_sign _) as [sg body].
    destruct (parse_number body) as [[c ex]|].
    - destruct (in_limits c ex); [discriminate|now intros [= <-]].
    - destruct (parse_special sg body); [discriminate|now intros [= <-]]. }
  destruct (Decimal_of_string old_field) as [old|e] eqn:Hold.
  - cbn [bind]. destruct (nth_error (first :: fields) 3) as [new_field|];
      [|exists IndexError; auto].
    cbn [bind]. destruct (Decimal_of_string new_field) as [new|e] eqn:Hnew.
    + discriminate.
    + exists e. split; [right; exact (Hctor _ _ Hnew)|reflexivity].
  - exists e. split; [right; exact (Hctor _ _ Hold)|reflexivity].
Qed.

(** C8 (as the code has it): a stream with a malformed row does not load:
    the loader raises, nothing is printed and no index is returned.  The
    exception is the [IndexError] or [decimal.InvalidOperation] of the
    first row that raises, which carries neither the line nor its number;
    when the rows before the malformed one load, it is that row's. *)
Theorem C8_malformed_row_fails_fast
        (chunk_size : Z) (pre post : list row) (r : row) :
  malformed_row r = true ->
  exists e,
    parse_nadac_data chunk_size (pre ++ r :: post)%list = Raise e
    /\ main (pre ++ r :: post)%list = ([], Raise e)
    /\ (forall data, parse_nadac_data chunk_size pre = Ok data ->
                     e = IndexError \/ e = InvalidOperation).
Proof.
  intros Hbad. unfold main, parse_nadac_data. rewrite parse_rows_app.
  destruct (parse_rows [] pre) as [data|e] eqn:Hpre; cbn [bind parse_rows].
  - destruct (malformed_row_raises data r Hbad) as (e & He & Hrow).
    rewrite Hrow. cbn [bind]. exists e. repeat split. intros _ _. exact He.
  - exists e. repeat split. intros data [=].
Qed.

(** A row of three fields after two rows that load. *)
Lemma C8_malformed_row_fails_fast_witness :
  exists e,
    parse_nadac_data main_chunk_size
      ([header; amoxicillin]
         ++ ["IBUPROFEN 200 MG SOFTGEL"; "00536114730"; "0.07853"]
         :: [acetaminophen])%list = Raise e
    /\ main
         ([header; amoxicillin]
            ++ ["IBUPROFEN 200 MG SOFTGEL"; "00536114730"; "0.07853"]
            :: [acetaminophen])%list = ([], Raise e)
    /\ (forall data,
          parse_nadac_data main_chunk_size [header; amoxicillin] = Ok data ->
                     e = IndexError \/ e = InvalidOperation).
Proof.
  exact (C8_malformed_row_fails_fast
           main_chunk_size [header; amoxicillin] [acetaminophen]
           ["IBUPROFEN 200 MG SOFTGEL"; "00536114730"; "0.07853"] eq_refl).
Defined.

(** C8 fails as stated: a row of four fields instead of ten, and a row of
    ten fields whose dates are no dates, load without an exception, and the
    report is printed. *)
Lemma C8_wrong_column_count_and_bad_date_load :
  main [ ["IBUPROFEN 200 MG SOFTGEL"; "00536114730"; "0.07853"; "0.08730"];
         ["AMOXICILLIN 200 MG/5 ML SUSP"; "00093416073"; "0.03051"; "0.02509";
          "G"; "-17.76"; "Survey Rate"; "soon"; "later"; "not a date"] ]
  = ([ "Top 10 NADAC per unit price increases of 2023:";
       "$0.00877: IBUPROFEN 200 MG SOFTGEL";
       "-$0.00542: AMOXICILLIN 200 MG/5 ML SUSP";
       LF ++ "Top 10 NADAC per unit price decreases of 2023:";
       "$0.00877: IBUPROFEN 200 MG SOFTGEL";
       "-$0.00542: AMOXICILLIN 200 MG/5 ML SUSP" ],
     Ok tt).
Proof. reflexivity. Qed.

(** ** The titles *)

(** C9: for the three rows of the header comment, all effective in 2022,
    both titles name the year 2023, where the header comment shows
    "of 2022". *)
Theorem C9_titles_name_2023 :
  main [header; amoxicillin; ibuprofen; acetaminophen] =
  ([ "Top 10 NADAC per unit price increases of 2023:";
     "$0.00877: IBUPROFEN 200 MG SOFTGEL";
     "-$0.00259: ACETAMINOPHEN 325 MG TABLET";
     "-$0.00542: AMOXICILLIN 200 MG/5 ML SUSP";
     LF ++ "Top 10 NADAC per unit price decreases of 2023:";
     "$0.00877: IBUPROFEN 200 MG SOFTGEL";
     "-$0.00259: ACETAMINOPHEN 325 MG TABLET";
     "-$0.00542: AMOXICILLIN 200 MG/5 ML SUSP" ],
   Ok tt).
Proof. reflexivity. Qed.

(** ** Small indexes *)

Lemma lastn_all {A : Type} (n : nat) (l : list A) :
  (List.length l <= n)%nat -> lastn n l = l.
Proof.
  intros H. unfold lastn.
  replace (List.length l - n)%nat with 0%nat by lia. reflexivity.
Qed.

(** C10 (as the code has it): for an index of one to nine entries whose
    price changes are printable (numbers, no NaN, that the decimal context
    represents), the increases and the decreases are both the whole
    descending order, so the two sections print the same lines, one for
    each entry of the index.  Without that condition the sections are not
    printed: see the example after the next one. *)
Theorem C10_small_index_sections_coincide (data : dict) :
  (1 <= List.length data < 10)%nat ->
  printables data ->
  exists ranked,
    sorted_desc data = Ok ranked
    /\ Permutation data ranked
    /\ firstn 10 ranked = ranked
    /\ lastn 10 ranked = ranked
    /\ print_top_10s data =
       ((increases_title :: map line ranked)
          ++ decreases_title :: map line ranked, Ok tt)%list
    /\ (forall entry, In entry data -> In (line entry) (map line ranked)).
Proof.
  intros Hlen Hp.
  destruct (print_top_10s_printable data Hp)
    as (ranked & Hsort & Hperm & _ & Hprint).
  assert (Hl : (List.length ranked <= 10)%nat).
  { rewrite <- (Permutation_length Hperm). lia. }
  exists ranked.
  rewrite (firstn_all2 ranked Hl), (lastn_all 10%nat ranked Hl) in *.
  repeat (split; [assumption || reflexivity|]).
  intros entry Hin. apply in_map. exact (Permutation_in entry Hperm Hin).
Qed.

(** The three price changes of the header comment, two of them negative. *)
Lemma C10_small_index_sections_coincide_witness :
  exists ranked,
    sorted_desc [("AMOXICILLIN 200 MG/5 ML SUSP", Finite true 542 (-5));
                 ("IBUPROFEN 200 MG SOFTGEL", Finite false 877 (-5));
                 ("ACETAMINOPHEN 325 MG TABLET", Finite true 259 (-5))]
      = Ok ranked
    /\ Permutation
         [("AMOXICILLIN 200 MG/5 ML SUSP", Finite true 542 (-5));
          ("IBUPROFEN 200 MG SOFTGEL", Finite false 877 (-5));
          ("ACETAMINOPHEN 325 MG TABLET", Finite true 259 (-5))] ranked
    /\ firstn 10 ranked = ranked
    /\ lastn 10 ranked = ranked
    /\ print_top_10s
         [("AMOXICILLIN 200 MG/5 ML SUSP", Finite true 542 (-5));
          ("IBUPROFEN 200 MG SOFTGEL", Finite false 877 (-5));
          ("ACETAMINOPHEN 325 MG TABLET", Finite true 259 (-5))]
       = ((increases_title :: map line ranked)
            ++ decreases_title :: map line ranked, Ok tt)%list
    /\ (forall entry,
          In entry
             [("AMOXICILLIN 200 MG/5 ML SUSP", Finite true 542 (-5));
              ("IBUPROFEN 200 MG SOFTGEL", Finite false 877 (-5));
              ("ACETAMINOPHEN 325 MG TABLET", Finite true 259 (-5))] ->
          In (line entry) (map line ranked)).
Proof.
  apply C10_small_index_sections_coincide.
  - cbn. lia.
  - repeat constructor.
Defined.

(** C10 fails as stated, for every index of one to nine entries: a price
    field "NaN" loads, and the index holds a NaN for the price change.
    With that one entry both slices are the entry, yet it is printed in
    neither section: the first title is printed and the formatting raises.
    With two entries the sort raises, and nothing is printed at all. *)
Lemma C10_nan_entry_in_no_section :
  parse_nadac_data main_chunk_size
    [header; ["IBUPROFEN 200 MG SOFTGEL"; "00536114730"; "0.07853"; "NaN"]]
  = Ok [("IBUPROFEN 200 MG SOFTGEL", NaN false false 0)]
  /\ (1 <= List.length [("IBUPROFEN 200 MG SOFTGEL", NaN false false 0)]
      < 10)%nat
  /\ sorted_desc [("IBUPROFEN 200 MG SOFTGEL", NaN false false 0)]
     = Ok [("IBUPROFEN 200 MG SOFTGEL", NaN false false 0)]
  /\ firstn 10 [("IBUPROFEN 200 MG SOFTGEL", NaN false false 0)]
     = [("IBUPROFEN 200 MG SOFTGEL", NaN false false 0)]
  /\ lastn 10 [("IBUPROFEN 200 MG SOFTGEL", NaN false false 0)]
     = [("IBUPROFEN 200 MG SOFTGEL", NaN false false 0)]
  /\ print_top_10s [("IBUPROFEN 200 MG SOFTGEL", NaN false false 0)]
     = ([increases_title], Raise InvalidOperation)
  /\ main [header;
           ["IBUPROFEN 200 MG SOFTGEL"; "00536114730"; "0.07853"; "NaN"]]
     = ([increases_title], Raise InvalidOperation)
  /\ parse_nadac_data main_chunk_size
       [header; amoxicillin;
        ["IBUPROFEN 200 MG SOFTGEL"; "00536114730"; "0.07853"; "NaN"]]
     = Ok [("AMOXICILLIN 200 MG/5 ML SUSP", Finite true 542 (-5));
           ("IBUPROFEN 200 MG SOFTGEL", NaN false false 0)]
  /\ sorted_desc [("AMOXICILLIN 200 MG/5 ML SUSP", Finite true 542 (-5));
                  ("IBUPROFEN 200 MG SOFTGEL", NaN false false 0)]
     = Raise InvalidOperation
  /\ main [header; amoxicillin;
           ["IBUPROFEN 200 MG SOFTGEL"; "00536114730"; "0.07853"; "NaN"]]
     = ([], Raise InvalidOperation)
  /\ ~ (exists ranked,
          print_top_10s [("IBUPROFEN 200 MG SOFTGEL", NaN false false 0)]
          = ((increases_title :: map line ranked)
               ++ decreases_title :: map line ranked, Ok tt)%list).
Proof.
  repeat match goal with |- _ /\ _ => split end;
    try reflexivity; try (cbn; lia).
  intros [ranked H].
  assert (E : print_top_10s
                [("IBUPROFEN 200 MG SOFTGEL", NaN false false 0)]
              = ([increases_title], Raise InvalidOperation))
    by reflexivity.
  rewrite E in H. discriminate H.
Qed.

End Properties.

(* ===================================================================== *)
(** * Further properties of the program *)
(* ===================================================================== *)

Section LoaderProperties.

Local Open Scope Z_scope.

(** The loop body looks at the fields it reads and at nothing else. *)
Lemma process_row_used_fields (data : dict) (r r' : row) :
  used_fields r = used_fields r' -> process_row data r = process_row data r'.
Proof.
  unfold used_fields. intros H.
  assert (H0 : nth_error r 0 = nth_error r' 0)
    by exact (f_equal (fun t => fst (fst t)) H).
  assert (H2 : nth_error r 2 = nth_error r' 2)
    by exact (f_equal (fun t => snd (fst t)) H).
  assert (H3 : nth_error r 3 = nth_error r' 3) by exact (f_equal snd H).
  unfold process_row, getitem. now rewrite H0, H2, H3.
Qed.

Lemma parse_rows_used_fields (reader : list row) :
  forall (reader' : list row) (data : dict),
    map used_fields reader = map used_fields reader' ->
    parse_rows data reader = parse_rows data reader'.
Proof.
  induction reader as [|r rest IH]; intros [|r' rest'] data Hmap;
    try discriminate; [reflexivity|].
  pose proof (f_equal (hd (used_fields r)) Hmap) as Hr.
  pose proof (f_equal (@tl _) Hmap) as Hrest.
  cbn [map hd tl] in Hr, Hrest. cbn [parse_rows].
  rewrite (process_row_used_fields data r r' Hr).
  destruct (process_row data r') as [data1|e]; cbn [bind]; [|reflexivity].
  now apply IH.
Qed.

(** X3: the outcome of the loader is decided by the fields 0, 2 and 3 of
    the rows: two responses whose rows agree on these fields give the same
    index or the same exception, whatever their NDC codes, dates and other
    columns are, and whatever the chunk sizes. *)
Theorem loader_reads_three_fields
        (chunk_size chunk_size' : Z) (reader reader' : list row) :
  map used_fields reader = map used_fields reader' ->
  parse_nadac_data chunk_size reader = parse_nadac_data chunk_size' reader'.
Proof. intros H. unfold parse_nadac_data. now apply parse_rows_used_fields. Qed.

(** The example rows with other NDC codes, classifications and dates. *)
Lemma loader_reads_three_fields_witness :
  parse_nadac_data main_chunk_size [header; amoxicillin; ibuprofen] =
  parse_nadac_data 1024
    [ ["NDC Description"; "Code"; "Old NADAC Per Unit"; "New NADAC Per Unit"];
      ["AMOXICILLIN 200 MG/5 ML SUSP"; ""; "0.03051"; "0.02509"];
      ["IBUPROFEN 200 MG SOFTGEL"; "n/a"; "0.07853"; "0.08730"; "B";
       "0"; ""; "01/01/1999"; "no date"; "01/05/2021"; "one more"] ].
Proof.
  apply loader_reads_three_fields. reflexivity.
Defined.

(** ** When the loader returns *)

Lemma parse_rows_ok_loads (reader : list row) :
  forall data data' : dict,
    parse_rows data reader = Ok data' ->
    Forall (fun r => row_loads r = true) reader.
Proof.
  induction reader as [|r rest IH]; intros data data' Hparse;
    [constructor|]. cbn [parse_rows] in Hparse.
  destruct (process_row data r) as [data1|] eqn:Hrow; [|discriminate].
  cbn [bind] in Hparse. constructor; [|exact (IH data1 data' Hparse)].
  unfold row_loads. destruct (process_row [] r) as [d|e] eqn:H0;
    [reflexivity|].
  rewrite (process_row_raise [] data r e H0) in Hrow. discriminate.
Qed.

(** X2: the loader returns an index exactly when every row loads, each
    taken by itself; and when the rows in front of a row load and that row
    raises, the loader raises the same exception, whatever rows follow. *)
Theorem loader_returns_iff_rows_load (chunk_size : Z) (reader : list row) :
  ((exists data, parse_nadac_data chunk_size reader = Ok data)
   <-> Forall (fun r => row_loads r = true) reader)
  /\ (forall (pre post : list row) (r : row) (data : dict) (e : exn),
        reader = (pre ++ r :: post)%list ->
        parse_nadac_data chunk_size pre = Ok data ->
        process_row [] r = Raise e ->
        parse_nadac_data chunk_size reader = Raise e).
Proof.
  split; [split|].
  - intros [data Hparse]. exact (parse_rows_ok_loads reader [] data Hparse).
  - intros Hloads. exact (parse_rows_loads reader Hloads []).
  - intros pre post r data e -> Hpre Hr. unfold parse_nadac_data in *.
    rewrite parse_rows_app, Hpre. cbn [bind parse_rows].
    now rewrite (process_row_raise [] data r e Hr).
Qed.

(** A price of 1e999999 less one of -9e999999 overflows; the row after it
    is not read. *)
Lemma loader_returns_iff_rows_load_witness :
  parse_nadac_data main_chunk_size
    [header; amoxicillin; ["X"; "1"; "-9e999999"; "1e999999"]; []]
  = Raise Overflow.
Proof.
  apply (proj2 (loader_returns_iff_rows_load main_chunk_size
                  [header; amoxicillin; ["X"; "1"; "-9e999999"; "1e999999"]; []])
           [header; amoxicillin] [[]] ["X"; "1"; "-9e999999"; "1e999999"]
           [("AMOXICILLIN 200 MG/5 ML SUSP", Finite true 542 (-5))] Overflow);
    reflexivity.
Defined.

(** ** The order of the index *)

Lemma first_occurrences_snoc (l : list string) (x : string) :
  first_occurrences (l ++ [x]) = add_key (first_occurrences l) x.
Proof.
  unfold first_occurrences, add_key. rewrite rev_app_distr. cbn [rev app nodup].
  destruct (in_dec string_dec x (rev l)) as [Hin|Hnin];
    destruct (in_dec string_dec x (rev (nodup string_dec (rev l))))
      as [Hin'|Hnin']; try reflexivity.
  - exfalso. apply Hnin'. apply -> in_rev. now apply nodup_In.
  - exfalso. apply Hnin. apply in_rev in Hin'. now apply nodup_In in Hin'.
Qed.

Lemma fold_add_key (l : list string) :
  fold_left add_key l [] = first_occurrences l.
Proof.
  induction l as [|x l IH] using rev_ind; [reflexivity|].
  now rewrite fold_left_app, first_occurrences_snoc, IH.
Qed.

Lemma keys_parse_rows (reader : list row) :
  forall data data' : dict,
    parse_rows data reader = Ok data' ->
    keys data' = fold_left add_key (descriptions reader) (keys data).
Proof.
  induction reader as [|r rest IH]; intros data data' Hparse;
    cbn [parse_rows] in Hparse.
  - now injection Hparse as <-.
  - destruct (process_row data r) as [data1|] eqn:Hrow; [|discriminate].
    cbn [bind] in Hparse. rewrite (IH data1 data' Hparse).
    destruct (process_row_ok data data1 r Hrow) as [(fields & -> & ->)|
      (d & fields & delta & -> & Hne & _ & ->)]; cbn [descriptions].
    + unfold HEADER at 1. now rewrite String.eqb_refl.
    + destruct (String.eqb_spec d HEADER) as [|_]; [contradiction|].
      cbn [fold_left]. now rewrite keys_update.
Qed.

(** X1: the index lists every description of a data row once, in the order
    in which the descriptions first appear in the response: a later row for
    a description replaces the price change and leaves the entry where it
    is. *)
Theorem index_in_order_of_first_rows (chunk_size : Z) (reader : list row) :
  Forall (fun r => row_loads r = true) reader ->
  exists data,
    parse_nadac_data chunk_size reader = Ok data
    /\ keys data = first_occurrences (descriptions reader).
Proof.
  intros Hloads.
  destruct (parse_rows_loads reader Hloads []) as (data & Hparse).
  exists data. split; [exact Hparse|].
  rewrite (keys_parse_rows reader [] data Hparse). apply fold_add_key.
Qed.

(** Amoxicillin, ibuprofen, amoxicillin again, acetaminophen. *)
Lemma index_in_order_of_first_rows_witness :
  exists data,
    parse_nadac_data main_chunk_size
      [header; amoxicillin; ibuprofen; amoxicillin_later; acetaminophen]
      = Ok data
    /\ keys data =
       ["AMOXICILLIN 200 MG/5 ML SUSP"; "IBUPROFEN 200 MG SOFTGEL";
        "ACETAMINOPHEN 325 MG TABLET"].
Proof.
  apply (index_in_order_of_first_rows main_chunk_size
           [header; amoxicillin; ibuprofen; amoxicillin_later; acetaminophen]).
  repeat constructor.
Defined.

(** ** The price changes of the index *)

(** What a representable finite number looks like. *)
Lemma representable_finite (s : bool) (c : N) (e : Z) :
  representable (Finite s c e) ->
  ndigits c <= prec /\ Etiny <= e /\ e + ndigits c - 1 <= Emax.
Proof.
  unfold representable, Decimal_fix.
  pose proof (ndigits_pos c) as Hpos.
  destruct (N.eqb_spec c 0) as [->|Hc].
  - intros [= He]. change (ndigits 0) with 1.
    unfold Etiny, Emin, Emax, prec in *. lia.
  - destruct (Z.ltb_spec Etop (ndigits c + e - prec)) as [|Htop];
      [discriminate|]. cbv zeta.
    destruct (Z.ltb_spec e (Z.max (ndigits c + e - prec) Etiny)) as [Hlt|Hge].
    + destruct (prec <? ndigits _).
      * destruct (Etop <? _); [discriminate|]. intros [= _ He]. lia.
      * destruct (Etop <? _); [discriminate|]. intros [= _ He]. lia.
    + intros _. unfold Etop, Etiny, Emin, Emax, prec in *. lia.
Qed.

(** X5: every finite price change of the index that the loader returns
    fits the decimal context: its coefficient has at most 28 digits, its
    exponent is at least Etiny = -1000026 and its adjusted exponent at most
    Emax = 999999. *)
Theorem index_deltas_fit_context (chunk_size : Z) (reader : list row) :
  Forall (fun r => row_loads r = true) reader ->
  exists data,
    parse_nadac_data chunk_size reader = Ok data
    /\ (forall (description : string) (s : bool) (c : N) (e : Z),
          In (description, Finite s c e) data ->
          ndigits c <= 28 /\ -1000026 <= e /\ e + ndigits c - 1 <= 999999).
Proof.
  intros Hloads.
  destruct (parse_rows_loads reader Hloads []) as (data & Hparse).
  exists data. split; [exact Hparse|].
  intros description s c e Hin.
  pose proof (parse_rows_representable reader [] data Hparse (Forall_nil _))
    as Hall.
  rewrite Forall_forall in Hall.
  exact (representable_finite s c e (Hall _ Hin)).
Qed.

(** A price of thirty digits is stored with twenty-eight. *)
Lemma index_deltas_fit_context_witness :
  exists data,
    parse_nadac_data main_chunk_size
      [["X"; "1"; "0.00001"; "100000000000000000000000000000"]] = Ok data
    /\ (forall (description : string) (s : bool) (c : N) (e : Z),
          In (description, Finite s c e) data ->
          ndigits c <= 28 /\ -1000026 <= e /\ e + ndigits c - 1 <= 999999).
Proof.
  apply index_deltas_fit_context. repeat constructor.
Defined.

(** ** Repeated rows *)

(** Two indexes with the same distinct keys in the same order and the same
    value under each key are the same. *)
Lemma dict_ext (data : dict) :
  forall data' : dict,
    NoDup (keys data) -> keys data = keys data' ->
    (forall key, In key (keys data) -> dict_get data key = dict_get data' key) ->
    data = data'.
Proof.
  induction data as [|[k v] rest IH]; intros [|[k' v'] rest'] Hnd Hkeys Hget;
    try discriminate; [reflexivity|].
  cbn [keys map fst] in Hkeys, Hnd. injection Hkeys as <- Hkeys.
  inversion Hnd as [|? ? Hnotin Hnd']; subst.
  pose proof (Hget k (or_introl eq_refl)) as Hk. cbn [dict_get] in Hk.
  rewrite String.eqb_refl in Hk. injection Hk as <-.
  f_equal. apply IH; [exact Hnd'|exact Hkeys|].
  intros key Hin. specialize (Hget key (or_intror Hin)). cbn [dict_get] in Hget.
  destruct (String.eqb_spec k key) as [->|_]; [contradiction|exact Hget].
Qed.

(** The last row of a description decides its entry, from any index. *)
Lemma parse_rows_last (pre post : list row) (description : string)
      (fields : list string) (data0 data : dict) :
  parse_rows data0 (pre ++ (description :: fields) :: post)%list = Ok data ->
  description <> HEADER ->
  (forall r', In r' post -> nth_error r' 0 <> Some description) ->
  exists delta,
    row_delta (description :: fields) = Ok delta
    /\ dict_get data description = Some delta.
Proof.
  intros Hparse Hne Hlast. rewrite parse_rows_app in Hparse.
  destruct (parse_rows data0 pre) as [data1|]; [|discriminate].
  cbn [bind parse_rows] in Hparse.
  rewrite (process_row_data data1 description fields Hne) in Hparse.
  destruct (row_delta (description :: fields)) as [delta|]; [|discriminate].
  cbn [bind] in Hparse. exists delta. split; [reflexivity|].
  rewrite (parse_rows_other description post _ data Hparse Hlast).
  apply dict_get_update_eq.
Qed.

(** A stream has a last row with a given first field, or none. *)
Lemma last_row_split (key : string) (reader : list row) :
  (forall r, In r reader -> nth_error r 0 <> Some key)
  \/ (exists pre fields post,
        reader = (pre ++ (key :: fields) :: post)%list
        /\ (forall r, In r post -> nth_error r 0 <> Some key)).
Proof.
  induction reader as [|r rest IH]; [left; intros r []|].
  destruct IH as [Hnone|(pre & fields & post & -> & Hpost)].
  - destruct r as [|first fields].
    + left. intros r [<-|Hin]; [discriminate|now apply Hnone].
    + destruct (string_dec first key) as [->|Hne].
      * right. exists [], fields, rest. now split.
      * left. intros r [<-|Hin]; [cbn; congruence|now apply Hnone].
  - right. exists (r :: pre), fields, post. now split.
Qed.

Lemma fold_add_key_incl (l : list string) :
  forall acc : list string,
    incl acc (fold_left add_key l acc) /\ incl l (fold_left add_key l acc).
Proof.
  induction l as [|x l IH]; intros acc; cbn [fold_left].
  - split; [apply incl_refl|intros x []].
  - destruct (IH (add_key acc x)) as [Hacc Hl].
    assert (Hx : In x (add_key acc x)).
    { unfold add_key. destruct (in_dec string_dec x acc); [assumption|].
      apply in_or_app. right. now left. }
    assert (Hincl : incl acc (add_key acc x)).
    { unfold add_key. destruct (in_dec string_dec x acc);
        [apply incl_refl|now apply incl_appl, incl_refl]. }
    split.
    + intros y Hy. apply Hacc, Hincl, Hy.
    + intros y [<-|Hy]; [apply Hacc, Hx|apply Hl, Hy].
Qed.

Lemma fold_add_key_present (l acc : list string) :
  incl l acc -> fold_left add_key l acc = acc.
Proof.
  revert acc. induction l as [|x l IH]; intros acc Hincl; [reflexivity|].
  cbn [fold_left]. unfold add_key at 2.
  destruct (in_dec string_dec x acc) as [_|Hn].
  - apply IH. intros y Hy. apply Hincl. now right.
  - exfalso. apply Hn, Hincl. now left.
Qed.

(** Loading rows into the index they gave leaves the index as it is. *)
Lemma parse_rows_again (reader : list row) (data : dict) :
  parse_rows [] reader = Ok data -> parse_rows data reader = Ok data.
Proof.
  intros Hparse.
  destruct (parse_rows_loads reader (parse_rows_ok_loads reader [] data Hparse)
              data) as (data' & Hagain).
  rewrite Hagain. f_equal. symmetry.
  destruct (parse_rows_invariant reader [] data Hparse) as [Hnd Hhd];
    [split; [constructor|intros []]|].
  pose proof (keys_parse_rows reader [] data Hparse) as Hkeys.
  apply dict_ext; [exact Hnd| |].
  - rewrite (keys_parse_rows reader data data' Hagain).
    symmetry. apply fold_add_key_present. rewrite Hkeys.
    apply fold_add_key_incl.
  - intros key Hin.
    assert (Hne : key <> HEADER) by (intros ->; contradiction).
    destruct (last_row_split key reader)
      as [Hnone|(pre & fields & post & -> & Hpost)].
    + symmetry. exact (parse_rows_other key reader data data' Hagain Hnone).
    + destruct (parse_rows_last pre post key fields [] data Hparse Hne Hpost)
        as (delta & Hdelta & ->).
      destruct (parse_rows_last pre post key fields data data' Hagain Hne Hpost)
        as (delta' & Hdelta' & ->).
      congruence.
Qed.

(** X4: a response that holds its rows twice over loads as the rows do
    once: the repeated rows leave the index, or the exception, as it is. *)
Theorem loader_repeated_rows (chunk_size : Z) (reader : list row) :
  parse_nadac_data chunk_size (reader ++ reader)%list =
  parse_nadac_data chunk_size reader.
Proof.
  unfold parse_nadac_data. rewrite parse_rows_app.
  destruct (parse_rows [] reader) as [data|e] eqn:Hparse; cbn [bind];
    [|reflexivity].
  now apply parse_rows_again.
Qed.

(** ** Rows that come later *)

Lemma fold_add_key_prefix (l : list string) :
  forall acc : list string,
    exists more, fold_left add_key l acc = (acc ++ more)%list.
Proof.
  induction l as [|x l IH]; intros acc; cbn [fold_left].
  - exists []. now rewrite app_nil_r.
  - destruct (IH (add_key acc x)) as (more & ->). unfold add_key.
    destruct (in_dec string_dec x acc).
    + now exists more.
    + exists (x :: more). now rewrite <- app_assoc.
Qed.

(** X14: rows that come later never remove an entry and never move one:
    the descriptions in the index of a response that has loaded so far stay
    in front, in their order, in the index of the whole response. *)
Theorem index_only_grows (chunk_size : Z) (pre post : list row)
        (data data' : dict) :
  parse_nadac_data chunk_size pre = Ok data ->
  parse_nadac_data chunk_size (pre ++ post)%list = Ok data' ->
  exists more, keys data' = (keys data ++ more)%list.
Proof.
  unfold parse_nadac_data. rewrite parse_rows_app. intros ->. cbn [bind].
  intros Hpost. rewrite (keys_parse_rows post data data' Hpost).
  apply fold_add_key_prefix.
Qed.

Lemma index_only_grows_witness :
  exists more,
    keys [("AMOXICILLIN 200 MG/5 ML SUSP", Finite false 91 (-5));
          ("IBUPROFEN 200 MG SOFTGEL", Finite false 877 (-5));
          ("ACETAMINOPHEN 325 MG TABLET", Finite true 259 (-5))]
    = (keys [("AMOXICILLIN 200 MG/5 ML SUSP", Finite true 542 (-5));
             ("IBUPROFEN 200 MG SOFTGEL", Finite false 877 (-5))]
         ++ more)%list.
Proof.
  exact (index_only_grows main_chunk_size
           [header; amoxicillin; ibuprofen]
           [amoxicillin_later; acetaminophen] _ _ eq_refl eq_refl).
Defined.

(** ** The exception of a row *)

Lemma Decimal_of_string_raise (value : string) (e : exn) :
  Decimal_of_string value = Raise e -> e = InvalidOperation.
Proof.
  unfold Decimal_of_string. destruct (split_sign _) as [sg body].
  destruct (parse_number body) as [[c ex]|].
  - destruct (in_limits c ex); [discriminate|now intros [= <-]].
  - destruct (parse_special sg body); [discriminate|now intros [= <-]].
Qed.

Lemma Decimal_fix_raise (d : Decimal) (e : exn) :
  Decimal_fix d = Raise e -> e = Overflow.
Proof.
  destruct d as [s c ex|s|s sg p]; try discriminate. unfold Decimal_fix.
  destruct (c =? 0)%N; [discriminate|].
  destruct (Etop <? ndigits c + ex - prec); [now intros [= <-]|]. cbv zeta.
  destruct (ex <? Z.max (ndigits c + ex - prec) Etiny); [|discriminate].
  destruct (prec <? ndigits _); destruct (Etop <? _); try discriminate;
    now intros [= <-].
Qed.

(** A subtraction raises [decimal.InvalidOperation] or [decimal.Overflow]
    and nothing else. *)
Lemma Decimal_sub_raise (a b : Decimal) (e : exn) :
  Decimal_sub a b = Raise e -> e <> IndexError.
Proof.
  unfold Decimal_sub, Decimal_add.
  destruct a as [sa ca ea|sa|sa [|] pa], b as [sb cb eb|sb|sb [|] pb];
    cbn [check_nans copy_negate]; try discriminate;
    try (intros [= <-]; discriminate).
  - destruct (_ =? 0); intros H; rewrite (Decimal_fix_raise _ _ H);
      discriminate.
  - destruct (Bool.eqb sa (negb sb)); [discriminate|].
    intros [= <-]. discriminate.
Qed.

(** X15: the rows that raise [IndexError]: a row without a field, a data
    row of one or two fields, and a data row of three fields whose old
    price [Decimal] accepts.  A data row of three fields whose old price
    [Decimal] refuses raises [decimal.InvalidOperation]: the old price is
    converted before the new price is fetched. *)
Theorem row_index_error (data : dict) (r : row) :
  (process_row data r = Raise IndexError
   <-> r = []
       \/ (exists first,
             nth_error r 0 = Some first /\ first <> HEADER
             /\ ((List.length r <= 2)%nat
                 \/ (List.length r = 3%nat
                     /\ exists old_field d,
                          nth_error r 2 = Some old_field
                          /\ Decimal_of_string old_field = Ok d))))
  /\ (forall first ndc old_field e,
        r = [first; ndc; old_field] -> first <> HEADER ->
        Decimal_of_string old_field = Raise e ->
        process_row data r = Raise InvalidOperation).
Proof.
  split.
  - destruct r as [|first fields].
    { split; [now left|reflexivity]. }
    destruct (string_dec first HEADER) as [->|Hne].
    { rewrite process_row_header. split; [discriminate|].
      intros [H|(f & [= <-] & Hf & _)]; [discriminate|contradiction]. }
    rewrite (process_row_data data first fields Hne). unfold row_delta.
    destruct fields as [|ndc [|old_field [|new_field rest]]];
      cbn [getitem nth_error bind List.length].
    + split; [|reflexivity]. intros _. right. exists first.
      repeat split; auto.
    + split; [|reflexivity]. intros _. right. exists first.
      repeat split; auto.
    + destruct (Decimal_of_string old_field) as [old|e] eqn:Hold; cbn [bind].
      * split; [|reflexivity]. intros _. right. exists first.
        repeat split; auto. right. split; [reflexivity|].
        now exists old_field, old.
      * rewrite (Decimal_of_string_raise old_field e Hold). split;
          [discriminate|].
        intros [H|(f & _ & _ & [Hlen|(_ & o & d & [= <-] & Hd)])];
          [discriminate|lia|congruence].
    + split.
      * destruct (Decimal_of_string old_field) as [old|e] eqn:Hold;
          cbn [bind].
        -- destruct (Decimal_of_string new_field) as [new|e] eqn:Hnew;
             cbn [bind].
           ++ destruct (Decimal_sub new old) as [delta|e] eqn:Hsub;
                cbn [bind]; [discriminate|].
              intros [= ->]. now apply Decimal_sub_raise in Hsub.
           ++ rewrite (Decimal_of_string_raise new_field e Hnew).
              discriminate.
        -- rewrite (Decimal_of_string_raise old_field e Hold). discriminate.
      * intros [H|(f & _ & _ & [Hlen|(Hlen & _)])];
          [discriminate|lia|lia].
  - intros first ndc old_field e -> Hne Hold.
    rewrite (process_row_data data first _ Hne). unfold row_delta.
    cbn [getitem nth_error bind]. rewrite Hold. cbn [bind].
    now rewrite (Decimal_of_string_raise old_field e Hold).
Qed.

(** A data row of three fields with the old price "n/a". *)
Lemma row_index_error_witness :
  process_row [] ["IBUPROFEN 200 MG SOFTGEL"; "00536114730"; "n/a"]
  = Raise InvalidOperation.
Proof.
  apply (proj2 (row_index_error
                  [] ["IBUPROFEN 200 MG SOFTGEL"; "00536114730"; "n/a"])
           "IBUPROFEN 200 MG SOFTGEL" "00536114730" "n/a" InvalidOperation);
    [reflexivity|discriminate|reflexivity].
Defined.

End LoaderProperties.

Section FormatProperties.

Local Open Scope Z_scope.

(** X6: [format_dollar_amount] returns for every finite amount whose sign
    is not set, whatever its size; it raises [decimal.InvalidOperation] on a
    NaN, where [amount < 0] has no answer; and it raises [decimal.Overflow]
    on a negative amount whose adjusted exponent is above Emax, where
    [abs(amount)] does not fit the context. *)
Theorem format_dollar_amount_raises :
  (forall (c : N) (e : Z),
      format_dollar_amount (Finite false c e)
      = Ok ("$" ++ Decimal_str (Finite false c e)))
  /\ (forall (s signaling : bool) (payload : N),
        format_dollar_amount (NaN s signaling payload) = Raise InvalidOperation)
  /\ (forall (c : N) (e : Z),
        c <> 0%N -> Emax < e + ndigits c - 1 ->
        format_dollar_amount (Finite true c e) = Raise Overflow).
Proof.
  split; [|split].
  - intros c e. unfold format_dollar_amount. now rewrite Decimal_lt_zero.
  - reflexivity.
  - intros c e Hc He. unfold format_dollar_amount.
    rewrite Decimal_lt_zero. cbn [andb bind].
    destruct (N.eqb_spec c 0) as [|_]; [contradiction|]. cbn [negb].
    unfold Decimal_abs, copy_abs, Decimal_fix.
    destruct (N.eqb_spec c 0) as [|_]; [contradiction|].
    destruct (Z.ltb_spec Etop (ndigits c + e - prec)) as [_|Hle];
      [reflexivity|].
    unfold Etop, prec in Hle. lia.
Qed.

(** [Decimal('-1E+1000000')], which the constructor accepts. *)
Lemma format_dollar_amount_raises_witness :
  Decimal_of_string "-1E+1000000" = Ok (Finite true 1 1000000)
  /\ format_dollar_amount (Finite true 1 1000000) = Raise Overflow.
Proof.
  split; [reflexivity|].
  apply (proj2 (proj2 format_dollar_amount_raises) 1%N 1000000);
    [discriminate|reflexivity].
Defined.

End FormatProperties.

Section ReportProperties.

(** In a descending list, what stands in front is not below what stands
    behind. *)
Lemma descending_app (l1 l2 : list (string * Decimal)) :
  descending (l1 ++ l2)%list ->
  forall x y, In x l1 -> In y l2 -> Decimal_ge (snd x) (snd y).
Proof.
  induction l1 as [|a l1 IH]; intros Hs x y Hx Hy; [destruct Hx|].
  cbn [app] in Hs. inversion Hs as [|? ? Hs' Hall]; subst.
  destruct Hx as [<-|Hx].
  - rewrite Forall_forall in Hall. apply Hall. apply in_or_app. now right.
  - now apply IH.
Qed.

(** X7: the increases are ten largest price changes: in the report of an
    index whose price changes print, no entry of the increases has a price
    change below that of an entry left out of them. *)
Theorem increases_are_largest (data : dict) :
  printables data ->
  exists ranked,
    sorted_desc data = Ok ranked
    /\ Permutation data ranked
    /\ print_top_10s data = (report ranked, Ok tt)
    /\ (forall x y,
          In x (firstn 10 ranked) -> In y (skipn 10 ranked) ->
          Decimal_ge (snd x) (snd y)).
Proof.
  intros Hp.
  destruct (print_top_10s_printable data Hp)
    as (ranked & Hsort & Hperm & Hdesc & Hprint).
  exists ranked. repeat (split; [assumption|]).
  apply descending_app. now rewrite firstn_skipn.
Qed.

Lemma increases_are_largest_witness :
  exists ranked,
    sorted_desc twelve_deltas = Ok ranked
    /\ Permutation twelve_deltas ranked
    /\ print_top_10s twelve_deltas = (report ranked, Ok tt)
    /\ (forall x y,
          In x (firstn 10 ranked) -> In y (skipn 10 ranked) ->
          Decimal_ge (snd x) (snd y)).
Proof.
  apply increases_are_largest. repeat constructor.
Defined.

(** X8: the decreases are ten smallest price changes: no entry of the
    decreases has a price change above that of an entry left out of
    them. *)
Theorem decreases_are_smallest (data : dict) :
  printables data ->
  exists ranked,
    sorted_desc data = Ok ranked
    /\ Permutation data ranked
    /\ print_top_10s data = (report ranked, Ok tt)
    /\ (forall x y,
          In x (firstn (List.length ranked - 10) ranked) ->
          In y (lastn 10 ranked) ->
          Decimal_ge (snd x) (snd y)).
Proof.
  intros Hp.
  destruct (print_top_10s_printable data Hp)
    as (ranked & Hsort & Hperm & Hdesc & Hprint).
  exists ranked. repeat (split; [assumption|]).
  apply descending_app. unfold lastn. now rewrite firstn_skipn.
Qed.

Lemma decreases_are_smallest_witness :
  exists ranked,
    sorted_desc twelve_deltas = Ok ranked
    /\ Permutation twelve_deltas ranked
    /\ print_top_10s twelve_deltas = (report ranked, Ok tt)
    /\ (forall x y,
          In x (firstn (List.length ranked - 10) ranked) ->
          In y (lastn 10 ranked) ->
          Decimal_ge (snd x) (snd y)).
Proof.
  apply decreases_are_smallest. repeat constructor.
Defined.

(** X9: the report of an index of [n] entries whose price changes print
    has the two titles and [min n 10] lines under each, and
    [print_top_10s] returns. *)
Theorem report_line_count (data : dict) :
  printables data ->
  exists out,
    print_top_10s data = (out, Ok tt)
    /\ List.length out = (2 + 2 * Nat.min (List.length data) 10)%nat.
Proof.
  intros Hp.
  destruct (print_top_10s_printable data Hp)
    as (ranked & _ & Hperm & _ & Hprint).
  eexists. split; [exact Hprint|].
  rewrite (Permutation_length Hperm).
  rewrite length_app. cbn [List.length]. rewrite !length_map.
  unfold lastn. rewrite length_firstn, length_skipn. lia.
Qed.

Lemma report_line_count_witness :
  exists out,
    print_top_10s twelve_deltas = (out, Ok tt)
    /\ List.length out = (2 + 2 * Nat.min (List.length twelve_deltas) 10)%nat.
Proof.
  apply report_line_count. repeat constructor.
Defined.

Lemma descending_firstn (n : nat) (l : list (string * Decimal)) :
  descending l -> descending (firstn n l).
Proof.
  revert l. induction n as [|n IH]; intros l Hs; [constructor|].
  destruct l as [|x l]; [constructor|]. cbn [firstn].
  inversion Hs as [|? ? Hs' Hall]; subst. constructor; [now apply IH|].
  rewrite <- (firstn_skipn n l) in Hall. now apply Forall_app in Hall.
Qed.

(** X16: both sections are printed from the largest price change down: in
    the increases and in the decreases alike, no entry has a price change
    below that of an entry printed after it. *)
Theorem sections_printed_descending (data : dict) :
  printables data ->
  exists ranked,
    sorted_desc data = Ok ranked
    /\ print_top_10s data = (report ranked, Ok tt)
    /\ descending (firstn 10 ranked)
    /\ descending (lastn 10 ranked).
Proof.
  intros Hp.
  destruct (print_top_10s_printable data Hp)
    as (ranked & Hsort & _ & Hdesc & Hprint).
  exists ranked. repeat (split; [assumption|]). split.
  - now apply descending_firstn.
  - now apply descending_skipn.
Qed.

Lemma sections_printed_descending_witness :
  exists ranked,
    sorted_desc five_deltas = Ok ranked
    /\ print_top_10s five_deltas = (report ranked, Ok tt)
    /\ descending (firstn 10 ranked)
    /\ descending (lastn 10 ranked).
Proof.
  apply sections_printed_descending. repeat constructor.
Defined.

(** ** Where the two sections meet *)

Lemma NoDup_app_disjoint {A : Type} (l1 l2 : list A) (x : A) :
  NoDup (l1 ++ l2)%list -> In x l1 -> ~ In x l2.
Proof.
  induction l1 as [|a l1 IH]; intros Hnd Hx Hx2; [destruct Hx|].
  cbn [app] in Hnd. inversion Hnd as [|? ? Hnotin Hnd']; subst.
  destruct Hx as [->|Hx].
  - apply Hnotin. apply in_or_app. now right.
  - now apply IH.
Qed.

Lemma In_skipn {A : Type} (n : nat) (l : list A) (x : A) :
  In x (skipn n l) -> In x l.
Proof.
  intros H. rewrite <- (firstn_skipn n l). apply in_or_app. now right.
Qed.

(** X10: in the report of an index with distinct descriptions, no entry
    stands in both sections when the index has twenty entries or more, and
    some entry stands in both when it has one to nineteen. *)
Theorem sections_share_entries_below_twenty (data : dict) :
  NoDup (keys data) -> printables data ->
  exists ranked,
    sorted_desc data = Ok ranked
    /\ print_top_10s data = (report ranked, Ok tt)
    /\ ((20 <= List.length data)%nat ->
        forall entry,
          In entry (firstn 10 ranked) -> ~ In entry (lastn 10 ranked))
    /\ ((1 <= List.length data < 20)%nat ->
        exists entry,
          In entry (firstn 10 ranked) /\ In entry (lastn 10 ranked)).
Proof.
  intros Hkeys Hp.
  destruct (print_top_10s_printable data Hp)
    as (ranked & Hsort & Hperm & _ & Hprint).
  exists ranked. split; [exact Hsort|]. split; [exact Hprint|].
  rewrite (Permutation_length Hperm). split.
  - intros Hlen entry Hfirst Hlast.
    assert (Hnd : NoDup ranked).
    { apply (NoDup_map_inv fst).
      apply (Permutation_NoDup (Permutation_map fst Hperm)). exact Hkeys. }
    rewrite <- (firstn_skipn 10 ranked) in Hnd.
    apply (NoDup_app_disjoint _ _ entry Hnd Hfirst).
    unfold lastn in Hlast.
    replace (List.length ranked - 10)%nat
      with ((List.length ranked - 20) + 10)%nat in Hlast by lia.
    rewrite <- skipn_skipn in Hlast. exact (In_skipn _ _ _ Hlast).
  - intros Hlen. set (i := (List.length ranked - 10)%nat).
    destruct (nth_error ranked i) as [entry|] eqn:Hnth.
    + exists entry. split.
      * apply (nth_error_In _ i). rewrite nth_error_firstn.
        destruct (PeanoNat.Nat.ltb_spec i 10); [exact Hnth|subst i; lia].
      * apply (nth_error_In _ 0). unfold lastn. fold i.
        rewrite nth_error_skipn. now rewrite Nat.add_0_r.
    + apply nth_error_None in Hnth. subst i. lia.
Qed.

Lemma sections_share_entries_below_twenty_witness :
  exists ranked,
    sorted_desc twelve_deltas = Ok ranked
    /\ print_top_10s twelve_deltas = (report ranked, Ok tt)
    /\ ((20 <= List.length twelve_deltas)%nat ->
        forall entry,
          In entry (firstn 10 ranked) -> ~ In entry (lastn 10 ranked))
    /\ ((1 <= List.length twelve_deltas < 20)%nat ->
        exists entry,
          In entry (firstn 10 ranked) /\ In entry (lastn 10 ranked)).
Proof.
  apply sections_share_entries_below_twenty.
  - repeat constructor; cbn; intuition discriminate.
  - repeat constructor.
Defined.

(** ** Equal price changes *)

Lemma Decimal_cmp_eq_sym (a b : Decimal) :
  Decimal_cmp a b = Eq -> Decimal_cmp b a = Eq.
Proof.
  destruct a as [sa ca ea|[|]|], b as [sb cb eb|[|]|];
    cbn [Decimal_cmp]; try (cbn; congruence).
  rewrite (Z.min_comm eb ea), !Z.compare_eq_iff. congruence.
Qed.

(** Two numbers equal to a third are not below one another. *)
Lemma same_delta_not_lt (x y : string * Decimal) (d : Decimal) :
  number (snd x) -> number (snd y) -> number d ->
  same_delta d x = true -> same_delta d y = true ->
  Decimal_cmp (snd x) (snd y) <> Lt.
Proof.
  unfold same_delta. intros Hx Hy Hd Hxd Hyd.
  destruct (Decimal_cmp (snd x) d) eqn:Hcx; try discriminate.
  destruct (Decimal_cmp (snd y) d) eqn:Hcy; try discriminate.
  apply (Decimal_ge_trans (snd x) d (snd y) Hx Hd Hy).
  - unfold Decimal_ge. congruence.
  - unfold Decimal_ge. rewrite (Decimal_cmp_eq_sym _ _ Hcy). discriminate.
Qed.

Lemma insert_desc_filter (d : Decimal) (x : string * Decimal)
      (l : list (string * Decimal)) :
  number d -> number (snd x) -> numbers l ->
  forall l', insert_desc x l = Ok l' ->
             filter (same_delta d) l' = filter (same_delta d) (x :: l).
Proof.
  intros Hd Hx Hl. induction Hl as [|y l Hy Hl IH]; intros l' Hins;
    cbn [insert_desc] in Hins.
  - now injection Hins as <-.
  - rewrite (Decimal_lt_number _ _ Hx Hy) in Hins. cbn [bind] in Hins.
    destruct (Decimal_cmp (snd x) (snd y)) eqn:Hcmp;
      try (now injection Hins as <-).
    destruct (insert_desc x l) as [rest|]; [|discriminate].
    cbn [bind] in Hins. injection Hins as <-.
    cbn [filter]. rewrite (IH rest eq_refl). cbn [filter].
    destruct (same_delta d x) eqn:Hpx, (same_delta d y) eqn:Hpy;
      try reflexivity.
    exfalso. exact (same_delta_not_lt x y d Hx Hy Hd Hpx Hpy Hcmp).
Qed.

(** X11: the sort is stable: in the ranking of an index whose price
    changes are numbers, the entries whose price change equals a given
    number stand in the order they have in the index. *)
Theorem ties_keep_index_order (data : dict) (d : Decimal) :
  numbers data -> number d ->
  exists ranked,
    sorted_desc data = Ok ranked
    /\ filter (same_delta d) ranked = filter (same_delta d) data.
Proof.
  intros Hn Hd. induction Hn as [|x l Hx Hl IH]; cbn [sorted_desc].
  - now exists [].
  - destruct IH as (ranked & Hsort & Hfilter). rewrite Hsort. cbn [bind].
    destruct (sorted_desc_spec l Hl) as (ranked' & Hsort' & Hperm & _).
    rewrite Hsort in Hsort'. injection Hsort' as <-.
    assert (Hr : numbers ranked) by exact (Permutation_Forall Hperm Hl).
    destruct (insert_desc_spec x ranked Hx Hr) as (l' & Hins & _).
    exists l'. split; [exact Hins|].
    rewrite (insert_desc_filter d x ranked Hd Hx Hr l' Hins).
    cbn [filter]. now rewrite Hfilter.
Qed.

(** The price changes 1, 1.0 and 1.00 between a 2 and a 0. *)
Lemma ties_keep_index_order_witness :
  exists ranked,
    sorted_desc [("A", Finite false 1 0); ("B", Finite false 2 0);
                 ("C", Finite false 10 (-1)); ("D", Finite false 0 0);
                 ("E", Finite false 100 (-2))] = Ok ranked
    /\ filter (same_delta (Finite false 1 0)) ranked =
       [("A", Finite false 1 0); ("C", Finite false 10 (-1));
        ("E", Finite false 100 (-2))].
Proof.
  apply (ties_keep_index_order
           [("A", Finite false 1 0); ("B", Finite false 2 0);
            ("C", Finite false 10 (-1)); ("D", Finite false 0 0);
            ("E", Finite false 100 (-2))] (Finite false 1 0)).
  - repeat constructor.
  - reflexivity.
Defined.

(** ** NaN price changes *)

Lemma Decimal_lt_raise (a b : Decimal) (e : exn) :
  Decimal_lt a b = Raise e -> e = InvalidOperation.
Proof.
  unfold Decimal_lt. destruct (is_nan a || is_nan b); [|discriminate].
  now intros [= <-].
Qed.

Lemma insert_desc_raise (x : string * Decimal) (l : list (string * Decimal))
      (e : exn) :
  insert_desc x l = Raise e -> e = InvalidOperation.
Proof.
  induction l as [|y l IH]; cbn [insert_desc]; [discriminate|].
  destruct (Decimal_lt (snd x) (snd y)) as [[|]|e'] eqn:Hlt; cbn [bind].
  - destruct (insert_desc x l) as [rest|e']; cbn [bind]; [discriminate|].
    intros [= <-]. now apply IH.
  - discriminate.
  - intros [= <-]. exact (Decimal_lt_raise _ _ _ Hlt).
Qed.

Lemma sorted_desc_raise (items : list (string * Decimal)) (e : exn) :
  sorted_desc items = Raise e -> e = InvalidOperation.
Proof.
  induction items as [|x rest IH]; cbn [sorted_desc]; [discriminate|].
  destruct (sorted_desc rest) as [rest'|e']; cbn [bind].
  - apply insert_desc_raise.
  - intros [= <-]. now apply IH.
Qed.

Lemma insert_desc_length (x : string * Decimal)
      (l l' : list (string * Decimal)) :
  insert_desc x l = Ok l' -> List.length l' = S (List.length l).
Proof.
  revert l'. induction l as [|y l IH]; intros l'; cbn [insert_desc].
  - now intros [= <-].
  - destruct (Decimal_lt (snd x) (snd y)) as [[|]|]; cbn [bind];
      try discriminate.
    + destruct (insert_desc x l) as [rest|]; cbn [bind]; [|discriminate].
      intros [= <-]. cbn [List.length]. now rewrite (IH rest eq_refl).
    + now intros [= <-].
Qed.

(** A ranking of two entries or more has no NaN in it: every entry has
    been compared. *)
Lemma insert_desc_numbers (x : string * Decimal)
      (l l' : list (string * Decimal)) :
  l <> [] -> (List.length l = 1%nat \/ numbers l) ->
  insert_desc x l = Ok l' -> numbers l'.
Proof.
  revert l'. induction l as [|y l IH]; intros l' Hne Hl; [contradiction|].
  cbn [insert_desc]. unfold Decimal_lt.
  destruct (is_nan (snd x)) eqn:Hx; cbn [orb bind]; [discriminate|].
  destruct (is_nan (snd y)) eqn:Hy; cbn [bind]; [discriminate|].
  assert (Hyl : numbers (y :: l)).
  { destruct Hl as [Hone|Hall]; [|exact Hall].
    destruct l; [|discriminate]. repeat constructor. exact Hy. }
  destruct (Decimal_cmp (snd x) (snd y)).
  - intros [= <-]. constructor; [exact Hx|exact Hyl].
  - destruct (insert_desc x l) as [rest|] eqn:Hins; cbn [bind];
      [|discriminate].
    intros [= <-]. inversion Hyl as [|? ? _ Hl']; subst.
    constructor; [exact Hy|].
    destruct l as [|z l].
    + cbn in Hins. injection Hins as <-. repeat constructor. exact Hx.
    + apply (IH rest); [discriminate|now right|reflexivity].
  - intros [= <-]. constructor; [exact Hx|exact Hyl].
Qed.

Lemma sorted_desc_numbers (items ranked : list (string * Decimal)) :
  (2 <= List.length items)%nat -> sorted_desc items = Ok ranked ->
  numbers ranked /\ List.length ranked = List.length items.
Proof.
  revert ranked. induction items as [|x rest IH]; intros ranked Hlen;
    [cbn in Hlen; lia|].
  cbn [sorted_desc].
  destruct (sorted_desc rest) as [rest'|] eqn:Hrest; cbn [bind];
    [|discriminate].
  intros Hins.
  assert (Hlen' : List.length rest' = List.length rest).
  { destruct rest as [|y [|z rest]].
    - cbn in Hrest. now injection Hrest as <-.
    - cbn in Hrest. now injection Hrest as <-.
    - apply (IH rest' ltac:(cbn; lia) eq_refl). }
  split.
  - apply (insert_desc_numbers x rest' ranked); [| |exact Hins].
    + intros ->. cbn in Hlen, Hlen'. lia.
    + destruct rest as [|y [|z rest]].
      * cbn in Hlen. lia.
      * left. exact Hlen'.
      * right. apply (IH rest' ltac:(cbn; lia) eq_refl).
  - rewrite (insert_desc_length x rest' ranked Hins), Hlen'. reflexivity.
Qed.

Lemma numbers_existsb (l : list (string * Decimal)) :
  numbers l -> existsb (fun kv => is_nan (snd kv)) l = false.
Proof.
  intros H. induction H as [|x l Hx Hl IH]; [reflexivity|].
  cbn [existsb]. unfold number in Hx. now rewrite Hx, IH.
Qed.

Lemma insert_desc_existsb (x : string * Decimal)
      (l l' : list (string * Decimal)) :
  insert_desc x l = Ok l' ->
  existsb (fun kv => is_nan (snd kv)) l' =
  existsb (fun kv => is_nan (snd kv)) (x :: l).
Proof.
  revert l'. induction l as [|y l IH]; intros l'; cbn [insert_desc].
  - now intros [= <-].
  - destruct (Decimal_lt (snd x) (snd y)) as [[|]|]; cbn [bind];
      try discriminate.
    + destruct (insert_desc x l) as [rest|]; cbn [bind]; [|discriminate].
      intros [= <-]. cbn [existsb]. rewrite (IH rest eq_refl). cbn [existsb].
      now destruct (is_nan (snd x)), (is_nan (snd y)).
    + now intros [= <-].
Qed.

Lemma sorted_desc_existsb (items ranked : list (string * Decimal)) :
  sorted_desc items = Ok ranked ->
  existsb (fun kv => is_nan (snd kv)) ranked =
  existsb (fun kv => is_nan (snd kv)) items.
Proof.
  revert ranked. induction items as [|x rest IH]; intros ranked;
    cbn [sorted_desc].
  - now intros [= <-].
  - destruct (sorted_desc rest) as [rest'|]; cbn [bind]; [|discriminate].
    intros Hins. rewrite (insert_desc_existsb x rest' ranked Hins).
    cbn [existsb]. now rewrite (IH rest' eq_refl).
Qed.

(** X12: an index of two entries or more with a NaN among its price
    changes has no report: the sort raises [decimal.InvalidOperation] and
    nothing is printed.  An index of one entry with a NaN is not compared
    with anything: the first title is printed, and then the formatting of
    the entry raises. *)
Theorem nan_delta_raises (data : dict) :
  existsb (fun kv => is_nan (snd kv)) data = true ->
  ((2 <= List.length data)%nat ->
   print_top_10s data = ([], Raise InvalidOperation))
  /\ (List.length data = 1%nat ->
      print_top_10s data = ([increases_title], Raise InvalidOperation)).
Proof.
  intros Hnan. split.
  - intros Hlen. unfold print_top_10s.
    destruct (sorted_desc data) as [ranked|e] eqn:Hsort.
    + destruct (sorted_desc_numbers data ranked Hlen Hsort) as [Hn _].
      rewrite <- (sorted_desc_existsb data ranked Hsort) in Hnan.
      rewrite (numbers_existsb ranked Hn) in Hnan. discriminate.
    + rewrite (sorted_desc_raise data e Hsort). reflexivity.
  - intros Hlen. destruct data as [|[description d] [|? ?]];
      try discriminate.
    cbn [existsb] in Hnan. rewrite orb_false_r in Hnan. cbn [snd] in Hnan.
    destruct d as [| |s sg p]; try discriminate. reflexivity.
Qed.

(** A NaN for the new price of ibuprofen. *)
Lemma nan_delta_raises_witness :
  parse_nadac_data main_chunk_size
    [header; amoxicillin;
     ["IBUPROFEN 200 MG SOFTGEL"; "00536114730"; "0.07853"; "NaN"]]
  = Ok [("AMOXICILLIN 200 MG/5 ML SUSP", Finite true 542 (-5));
        ("IBUPROFEN 200 MG SOFTGEL", NaN false false 0)]
  /\ print_top_10s
       [("AMOXICILLIN 200 MG/5 ML SUSP", Finite true 542 (-5));
        ("IBUPROFEN 200 MG SOFTGEL", NaN false false 0)]
     = ([], Raise InvalidOperation).
Proof.
  split; [reflexivity|].
  apply (proj1 (nan_delta_raises
                  [("AMOXICILLIN 200 MG/5 ML SUSP", Finite true 542 (-5));
                   ("IBUPROFEN 200 MG SOFTGEL", NaN false false 0)]
                  eq_refl)).
  cbn. lia.
Defined.

End ReportProperties.

Section MainProperties.

Local Open Scope Z_scope.

Lemma Decimal_fix_number (d d' : Decimal) :
  number d -> Decimal_fix d = Ok d' -> number d'.
Proof.
  unfold number. destruct d as [s c e|s|s sg p]; try discriminate; intros _.
  - unfold Decimal_fix. destruct (c =? 0)%N; [now intros [= <-]|].
    destruct (Etop <? ndigits c + e - prec); [discriminate|]. cbv zeta.
    destruct (e <? Z.max (ndigits c + e - prec) Etiny); [|now intros [= <-]].
    destruct (prec <? ndigits _); destruct (Etop <? _); try discriminate;
      now intros [= <-].
  - now intros [= <-].
Qed.

(** The difference of two numbers is a number, when there is one. *)
Lemma Decimal_sub_number (a b d : Decimal) :
  number a -> number b -> Decimal_sub a b = Ok d -> number d.
Proof.
  unfold number. intros Ha Hb.
  destruct a as [sa ca ea|sa|sa sga pa]; try discriminate;
    destruct b as [sb cb eb|sb|sb sgb pb]; try discriminate;
    unfold Decimal_sub, Decimal_add; cbn [check_nans copy_negate].
  - destruct (_ =? 0); apply Decimal_fix_number; reflexivity.
  - now intros [= <-].
  - now intros [= <-].
  - destruct (Bool.eqb sa (negb sb)); [now intros [= <-]|discriminate].
Qed.

Lemma process_row_numbers (data data' : dict) (r : row) :
  nan_price r = false -> process_row data r = Ok data' ->
  numbers data -> numbers data'.
Proof.
  intros Hnan Hrow Hn.
  destruct (process_row_ok data data' r Hrow) as [(fields & _ & ->)|
    (description & fields & delta & -> & Hne & Hdelta & ->)]; [exact Hn|].
  apply Forall_update; [exact Hn|].
  cbn [nan_price] in Hnan.
  destruct (String.eqb_spec description HEADER) as [|_]; [contradiction|].
  cbn [negb andb] in Hnan. apply orb_false_elim in Hnan as [Hold Hnew].
  unfold row_delta, getitem in Hdelta.
  destruct (nth_error (description :: fields) 2) as [old_field|];
    [|discriminate]. cbn [bind] in Hdelta.
  destruct (nth_error (description :: fields) 3) as [new_field|].
  - unfold spells_nan in Hold, Hnew.
    destruct (Decimal_of_string old_field) as [old|]; [|discriminate].
    cbn [bind] in Hdelta.
    destruct (Decimal_of_string new_field) as [new|]; [|discriminate].
    cbn [bind] in Hdelta.
    exact (Decimal_sub_number new old delta Hnew Hold Hdelta).
  - destruct (Decimal_of_string old_field); discriminate.
Qed.

Lemma parse_rows_numbers (reader : list row) :
  Forall (fun r => nan_price r = false) reader ->
  forall data data' : dict,
    parse_rows data reader = Ok data' -> numbers data -> numbers data'.
Proof.
  intros Hall. induction Hall as [|r rest Hr Hrest IH];
    intros data data' Hparse Hn; cbn [parse_rows] in Hparse.
  - now injection Hparse as <-.
  - destruct (process_row data r) as [data1|] eqn:Hrow; [|discriminate].
    cbn [bind] in Hparse.
    exact (IH data1 data' Hparse (process_row_numbers data data1 r Hr Hrow Hn)).
Qed.

(** X13: when every row of the response loads and no price field of a data
    row is a NaN, the program prints the whole report and ends without an
    exception: the titles over the first ten and the last ten entries of
    the descending order of the index, in which no description stands
    twice. *)
Theorem main_prints_report (reader : list row) :
  Forall (fun r => row_loads r = true) reader ->
  Forall (fun r => nan_price r = false) reader ->
  exists data ranked,
    parse_nadac_data main_chunk_size reader = Ok data
    /\ sorted_desc data = Ok ranked
    /\ Permutation data ranked
    /\ descending ranked
    /\ NoDup (map fst ranked)
    /\ main reader = (report ranked, Ok tt).
Proof.
  intros Hloads Hnan.
  destruct (parse_rows_loads reader Hloads []) as (data & Hparse).
  assert (Hn : numbers data)
    by exact (parse_rows_numbers reader Hnan [] data Hparse (Forall_nil _)).
  assert (Hp : printables data)
    by exact (parse_nadac_data_printables main_chunk_size reader data Hparse Hn).
  destruct (print_top_10s_printable data Hp)
    as (ranked & Hsort & Hperm & Hdesc & Hprint).
  exists data, ranked. repeat (split; [assumption|]). split.
  - apply (Permutation_NoDup (Permutation_map fst Hperm)).
    apply (parse_rows_invariant reader [] data Hparse).
    split; [constructor|intros []].
  - unfold main, parse_nadac_data, lift. unfold parse_nadac_data in Hparse.
    rewrite Hparse. unfold io_bind at 1. rewrite Hprint. cbn [app].
    reflexivity.
Qed.

Lemma main_prints_report_witness :
  exists data ranked,
    parse_nadac_data main_chunk_size
      [header; amoxicillin; ibuprofen; amoxicillin_later; acetaminophen]
      = Ok data
    /\ sorted_desc data = Ok ranked
    /\ Permutation data ranked
    /\ descending ranked
    /\ NoDup (map fst ranked)
    /\ main [header; amoxicillin; ibuprofen; amoxicillin_later; acetaminophen]
       = (report ranked, Ok tt).
Proof.
  apply main_prints_report; repeat constructor.
Defined.

End MainProperties.
